(** * utu/meta/simple_agent_generator.py: the agent-configuration pipeline

    A shallow embedding of [SimpleAgentGenerator]: the four pipeline steps,
    the document formatter and the two drivers ([run], [run_streamed]),
    written as computations in a state-and-exception monad over an explicit
    world (the generator object, the task recorder, the object store, the
    file system, the logger and the console).

    Conventions.
    - A Python [str] is a [string]; each [ascii] stands for one code point
      below 256.
    - A [dict] whose iteration order is read by the code is an association
      list in insertion order; a [dict] that is only looked up is a [gmap].
    - Everything the module imports from elsewhere (the agent runtime, the
      interactive toolkit, the template environment, [json.loads], path
      joining) is a field of the environment record [Env]. *)

From Stdlib Require Import String Ascii.
From stdpp Require Import base gmap strings list.

Open Scope string_scope.
Open Scope list_scope.
#[local] Set Warnings "-register-all".

(** ** Python string primitives *)

Module Py.

Definition LF : ascii := "010"%char.
Definition SP : ascii := " "%char.
Definition NL : string := String LF EmptyString.

(** [c in s] for a one-character [c]. *)
Fixpoint contains (c : ascii) (s : string) : bool :=
  match s with
  | EmptyString => false
  | String a s' => if Ascii.eqb a c then true else contains c s'
  end.

(** [s.replace(old, new)] for one-character [old] and [new]. *)
Fixpoint replace (old new : ascii) (s : string) : string :=
  match s with
  | EmptyString => EmptyString
  | String a s' => String (if Ascii.eqb a old then new else a) (replace old new s')
  end.

(** [s[:n]]. *)
Fixpoint slice_to (n : nat) (s : string) : string :=
  match n, s with
  | S n', String a s' => String a (slice_to n' s')
  | _, _ => EmptyString
  end.

(** [c * n] for a one-character [c]. *)
Fixpoint times (c : ascii) (n : nat) : string :=
  match n with
  | O => EmptyString
  | S n' => String c (times c n')
  end.

(** [s.split(sep)] for a one-character [sep]: never empty, the empty string
    gives the list of one empty string. *)
Fixpoint split (sep : ascii) (s : string) : list string :=
  match s with
  | EmptyString => [EmptyString]
  | String a s' =>
      if Ascii.eqb a sep then EmptyString :: split sep s'
      else match split sep s' with
           | [] => [String a EmptyString]
           | l :: ls => String a l :: ls
           end
  end.

(** [sep.join(ls)]. *)
Definition join (sep : string) (ls : list string) : string := String.concat sep ls.

(** [s.startswith(p)]. *)
Definition startswith (p s : string) : bool := String.prefix p s.

(** The lines of a text: [text.split("\n")]. *)
Definition lines (text : string) : list string := split LF text.

End Py.

(** ** JSON: the values [json.loads] returns and the text [json.dumps] writes *)

Module Json.

(** A decoded JSON document. An object is the [dict] the decoder builds:
    its pairs are in insertion order. A number keeps its literal. *)
Inductive value : Type :=
| Null
| Bool (b : bool)
| Num (literal : string)
| Str (s : string)
| Arr (items : list value)
| Obj (members : list (string * value)).

(** The Python type [json.loads] gives a number: [float] when the literal
    has a fraction or an exponent or is [NaN] or an [Infinity], else [int]. *)
Definition number_type (literal : string) : string :=
  if Py.contains "."%char literal || Py.contains "e"%char literal
     || Py.contains "E"%char literal || Py.contains "N"%char literal
     || Py.contains "I"%char literal
  then "float" else "int".

Definition DQUOTE : ascii := "034"%char.
Definition BACKSLASH : ascii := "092"%char.

Definition hex_digit (n : nat) : ascii :=
  match String.get n "0123456789abcdef" with
  | Some a => a
  | None => "0"%char
  end.

(** The [\uXXXX] escape of a code point below 256. *)
Definition u_escape (n : nat) : string :=
  String BACKSLASH
    (String "u"%char (String "0"%char (String "0"%char
      (String (hex_digit (n / 16)) (String (hex_digit (n mod 16)) EmptyString))))).

Definition short_escape (c : ascii) : string :=
  String BACKSLASH (String c EmptyString).

(** [ESCAPE_ASCII] with [ESCAPE_DCT]: everything outside [' '..'~'], the
    quote and the backslash are escaped. *)
Definition escape_char (a : ascii) : string :=
  let n := nat_of_ascii a in
  if Nat.eqb n 34 then short_escape DQUOTE
  else if Nat.eqb n 92 then short_escape BACKSLASH
  else if Nat.eqb n 8 then short_escape "b"%char
  else if Nat.eqb n 12 then short_escape "f"%char
  else if Nat.eqb n 10 then short_escape "n"%char
  else if Nat.eqb n 13 then short_escape "r"%char
  else if Nat.eqb n 9 then short_escape "t"%char
  else if Nat.ltb n 32 || Nat.ltb 126 n then u_escape n
  else String a EmptyString.

Fixpoint escape (s : string) : string :=
  match s with
  | EmptyString => EmptyString
  | String a s' => escape_char a +:+ escape s'
  end.

(** [json.dumps(s)] for a [str]. *)
Definition dumps_str (s : string) : string :=
  String DQUOTE (escape s +:+ String DQUOTE EmptyString).

(** [json.dumps(l)] for a list of [str], with the default separators. *)
Definition dumps_list (l : list string) : string :=
  "[" +:+ Py.join ", " (map dumps_str l) +:+ "]".

(** [json.dumps({'activated_tools': tool_names})]. *)
Definition dumps_activated_tools (tool_names : list string) : string :=
  "{" +:+ dumps_str "activated_tools" +:+ ": " +:+ dumps_list tool_names +:+ "}".

End Json.

(** ** Ordered dictionaries with [str] keys *)

Module Dict.

Section Ops.
Context {V : Type}.

(** [d.get(k)]. *)
Fixpoint lookup (k : string) (d : list (string * V)) : option V :=
  match d with
  | [] => None
  | (k', v) :: d' => if String.eqb k' k then Some v else lookup k d'
  end.

(** [d.keys()], in insertion order. *)
Definition keys (d : list (string * V)) : list string := map fst d.

(** [d[k] = f(d[k])] for a key that is present: the entry keeps its place. *)
Fixpoint alter (f : V -> V) (k : string) (d : list (string * V)) : list (string * V) :=
  match d with
  | [] => []
  | (k', v) :: d' =>
      if String.eqb k' k then (k', f v) :: d' else (k', v) :: alter f k d'
  end.

End Ops.

(** [defaultdict(list)]: reading a missing key gives the empty list. *)
Definition get_list {A} (k : string) (d : list (string * list A)) : list A :=
  match lookup k d with
  | Some l => l
  | None => []
  end.

(** [d[k].append(x)] on a [defaultdict(list)]: a missing key is created at
    the end of the dictionary. *)
Definition append_to {A} (k : string) (x : A) (d : list (string * list A))
  : list (string * list A) :=
  match lookup k d with
  | Some _ => alter (fun l => (l ++ [x])%list) k d
  | None => (d ++ [(k, [x])])%list
  end.

End Dict.

(** ** Exceptions and results *)

Inductive Exn : Type :=
| JSONDecodeError (doc : string)
| KeyError (key : Json.value)
| TypeError (msg : string)
| ValueError (msg : string)
| AttributeError (attr : string)
| OSError (path : string)
| ExternalError (msg : string).

Inductive result (A : Type) : Type :=
| Ok (a : A)
| Raise (e : Exn).
Arguments Ok {A} a.
Arguments Raise {A} e.

Definition is_ok {A} (r : result A) : bool :=
  match r with Ok _ => true | Raise _ => false end.

(** ** [str.format] with keyword fields *)

(** [tpl.format] with keyword arguments [kwargs], for templates whose replacement fields are plain
    names and that have no doubled braces, as the two templates of this
    module. [field] holds the name being read while inside braces. *)
Fixpoint format_from (tpl : string) (field : option string)
    (kwargs : list (string * string)) : result string :=
  match tpl, field with
  | EmptyString, None => Ok EmptyString
  | EmptyString, Some _ => Raise (ValueError "expected '}' before end of string")
  | String a rest, None =>
      if Ascii.eqb a "{"%char then format_from rest (Some EmptyString) kwargs
      else if Ascii.eqb a "}"%char then
        Raise (ValueError "Single '}' encountered in format string")
      else match format_from rest None kwargs with
           | Ok s => Ok (String a s)
           | Raise e => Raise e
           end
  | String a rest, Some f =>
      if Ascii.eqb a "}"%char then
        match Dict.lookup f kwargs with
        | None => Raise (KeyError (Json.Str f))
        | Some v =>
            match format_from rest None kwargs with
            | Ok s => Ok (v +:+ s)
            | Raise e => Raise e
            end
        end
      else format_from rest (Some (f +:+ String a EmptyString)) kwargs
  end.

Definition format (tpl : string) (kwargs : list (string * string)) : result string :=
  format_from tpl None kwargs.

(** [str(x)] for a field that holds a [str] or [None]. *)
Definition py_str (x : option string) : string :=
  match x with
  | Some s => s
  | None => "None"
  end.

(** ** Module constants *)

Definition TOOL_SELECTION_TEMPLATE : string :=
"<available_tools>
{available_tools}
</available_tools>
<requirement>
{requirement}
</requirement>".

Definition CONFIG_TEMPLATE : string :=
"
# @package _global_
defaults:
  - /model/base@model
{toolkits_includes}
  - _self_

toolkits:
{toolkits_configs}

agent:
  name: {agent_name}
  instructions: |
{instructions}
".

(** The argument of [add_indented_lines]: [str | list[str]]. *)
Inductive StrOrList : Type :=
| OfStr (s : string)
| OfList (l : list string).

Definition add_indented_lines (lines : StrOrList) (indent : nat) : string :=
  let lines :=
    match lines with
    | OfStr s => Py.split Py.LF s
    | OfList l => l
    end in
  Py.join Py.NL (map (fun line => Py.times Py.SP indent +:+ line) lines).

(** ** Objects of the collaborating modules *)

(** What [get_tools_in_agents] lists of a tool. *)
Record Tool : Type := { tool_name : string; tool_description : string }.

(** A progress event of the agent runtime; opaque to this module. *)
Definition Event : Type := string.

(** The arguments [SimpleAgent] is constructed with. [stop_at_tool_names] is
    [None] when no [tool_use_behavior] is given. *)
Record SimpleAgent : Type := {
  agent_name : string;
  agent_instructions : string;
  agent_tools : list Tool;
  stop_at_tool_names : option (list string)
}.

(** What a streamed run produces: the events it yields, the exception the
    stream ends with if the run fails, and the final output. *)
Record RunResultStreaming : Type := {
  stream_events : list Event;
  stream_failure : option Exn;
  final_output : string
}.

(** Objects are identified by their address in the object store. *)
Inductive Object : Type :=
| InteractionToolkitObj
| AgentObj (a : SimpleAgent).

(** The task recorder of [.common]. *)
Record GeneratorTaskRecorder : Type := {
  requirements : option string;
  selected_tools : option (list (string * list string));
  instructions : option string;
  name : option string;
  _event_queue : list Event;
  _is_complete : bool;
  _run_impl_task : option nat
}.

(** Modelled from the spec: the constructor of [GeneratorTaskRecorder], whose
    class is declared in [.common]. A record is created at run start with no
    step output set, an empty event queue and the completion flag false. *)
Definition new_recorder : GeneratorTaskRecorder :=
  {| requirements := None; selected_tools := None; instructions := None;
     name := None; _event_queue := []; _is_complete := false;
     _run_impl_task := None |}.

Record SimpleAgentGenerator : Type := {
  output_dir : string;
  mode : string;
  _initialized : bool;
  interaction_toolkit : option nat;
  agent_1 : option nat;
  agent_2 : option nat;
  agent_3 : option nat;
  agent_4 : option nat
}.

(** ** The environment: everything imported from other modules *)

Record Env : Type := {
  (** [interaction_toolkit.ask_user(prompt)] *)
  ask_user : string -> result string;
  (** [interaction_toolkit.get_tools_in_agents()] *)
  interaction_tools : result (list Tool);
  (** [jinja_env.get_template(name).render()] *)
  render_template : string -> result string;
  (** [get_toolkits_map(names)]: the toolkits loaded, in the order of the
      [dict], each with what its [get_tools_in_agents()] lists; the loading
      and the listing are taken to succeed, so that what is proved of
      [step2] is proved of the runs in which they do *)
  get_toolkits_map : list string -> list (string * list Tool);
  (** [agent.run_streamed(input)], drained; the input is [None] when the
      recorder field it is read from is unset *)
  run_agent : SimpleAgent -> option string -> RunResultStreaming;
  (** [json.loads(text)]; [None] when the text is not a JSON document *)
  json_loads : string -> option Json.value;
  (** [directory / file_name] of [pathlib] *)
  joinpath : string -> string -> string;
  (** whether [path.write_text] succeeds; a write that fails is taken to
      leave the files as they were, which Python does not promise, and
      nothing is proved of the files after a failed write *)
  can_write : string -> bool;
  (** [str(task_recorder)] *)
  show_recorder : GeneratorTaskRecorder -> string
}.

(** ** The world and the monad of the embedding *)

(** Where a coroutine of this module can be suspended. *)
Inductive Point : Type :=
| ListingTools   (* [await ... get_tools_in_agents()] *)
| AskingUser     (* [await ... ask_user(...)] *)
| Entering       (* [async with agent]: [__aenter__] *)
| Streaming      (* waiting for the next event of the stream *)
| Exiting.       (* [async with agent]: [__aexit__] *)

(** What another task sees when it runs at a suspension: the step being
    executed (0 is [build]), the place, and the recorder as it is then. *)
Record Suspension : Type := {
  in_step : nat;
  at_point : Point;
  seen : GeneratorTaskRecorder
}.

Record World : Type := {
  self : SimpleAgentGenerator;
  task_recorder : GeneratorTaskRecorder;
  objects : list Object;
  files : gmap string string;
  warnings : list string;
  stdout : list string;
  scheduled : list nat;
  (* ghost state: the step being executed and the suspensions so far *)
  current_step : nat;
  suspensions : list Suspension
}.

Definition M (A : Type) : Type := World -> result A * World.

#[global] Instance M_ret : MRet M := fun A a w => (Ok a, w).
#[global] Instance M_bind : MBind M := fun A B k m w =>
  match m w with
  | (Ok a, w') => k a w'
  | (Raise e, w') => (Raise e, w')
  end.

Definition raise {A} (e : Exn) : M A := fun w => (Raise e, w).

Definition lift {A} (r : result A) : M A := fun w => (r, w).

Definition gets {A} (f : World -> A) : M A := fun w => (Ok (f w), w).

Definition modify (f : World -> World) : M unit := fun w => (Ok tt, f w).

(** Run [body], then [final] whether [body] raised or not. *)
Definition finally {A} (body : M A) (final : M unit) : M A := fun w =>
  match body w with
  | (Ok a, w') =>
      match final w' with
      | (Ok _, w'') => (Ok a, w'')
      | (Raise e, w'') => (Raise e, w'')
      end
  | (Raise e, w') => (Raise e, snd (final w'))
  end.

Definition set_self (f : SimpleAgentGenerator -> SimpleAgentGenerator) : M unit :=
  modify (fun w =>
    {| self := f (self w); task_recorder := task_recorder w; objects := objects w;
       files := files w; warnings := warnings w; stdout := stdout w;
       scheduled := scheduled w; current_step := current_step w;
       suspensions := suspensions w |}).

Definition set_recorder (f : GeneratorTaskRecorder -> GeneratorTaskRecorder) : M unit :=
  modify (fun w =>
    {| self := self w; task_recorder := f (task_recorder w); objects := objects w;
       files := files w; warnings := warnings w; stdout := stdout w;
       scheduled := scheduled w; current_step := current_step w;
       suspensions := suspensions w |}).

(** Construct an object: it gets the next free address. *)
Definition alloc (o : Object) : M nat := fun w =>
  (Ok (length (objects w)),
   {| self := self w; task_recorder := task_recorder w;
      objects := (objects w ++ [o])%list;
      files := files w; warnings := warnings w; stdout := stdout w;
      scheduled := scheduled w; current_step := current_step w;
      suspensions := suspensions w |}).

Definition write_file (path text : string) : M unit :=
  modify (fun w =>
    {| self := self w; task_recorder := task_recorder w; objects := objects w;
       files := <[path := text]> (files w); warnings := warnings w;
       stdout := stdout w; scheduled := scheduled w;
       current_step := current_step w; suspensions := suspensions w |}).

(** [logger.warning(msg)]. *)
Definition log_warning (msg : string) : M unit :=
  modify (fun w =>
    {| self := self w; task_recorder := task_recorder w; objects := objects w;
       files := files w; warnings := (warnings w ++ [msg])%list;
       stdout := stdout w; scheduled := scheduled w;
       current_step := current_step w; suspensions := suspensions w |}).

(** [print(msg)]. *)
Definition print (msg : string) : M unit :=
  modify (fun w =>
    {| self := self w; task_recorder := task_recorder w; objects := objects w;
       files := files w; warnings := warnings w;
       stdout := (stdout w ++ [msg])%list; scheduled := scheduled w;
       current_step := current_step w; suspensions := suspensions w |}).


(** Ghost: entering the body of step [k]. *)
Definition enter_step (k : nat) : M unit :=
  modify (fun w =>
    {| self := self w; task_recorder := task_recorder w; objects := objects w;
       files := files w; warnings := warnings w; stdout := stdout w;
       scheduled := scheduled w; current_step := k;
       suspensions := suspensions w |}).

(** An [await]: the coroutine may be suspended here, and whoever runs
    meanwhile sees the recorder as it is now. *)
Definition await (p : Point) : M unit :=
  modify (fun w =>
    {| self := self w; task_recorder := task_recorder w; objects := objects w;
       files := files w; warnings := warnings w; stdout := stdout w;
       scheduled := scheduled w; current_step := current_step w;
       suspensions :=
         (suspensions w
            ++ [{| in_step := current_step w; at_point := p;
                   seen := task_recorder w |}])%list |}).

(** [async with agent: body]. *)
Definition async_with {A} (body : M A) : M A :=
  await Entering ;; finally body (await Exiting).

(** [for x in xs: body(x)]. *)
Fixpoint for_each {A} (xs : list A) (body : A -> M unit) : M unit :=
  match xs with
  | [] => mret tt
  | x :: xs' => body x ;; for_each xs' body
  end.

(** ** Field assignments *)

Definition set_initialized (b : bool) (g : SimpleAgentGenerator) : SimpleAgentGenerator :=
  {| output_dir := output_dir g; mode := mode g; _initialized := b;
     interaction_toolkit := interaction_toolkit g; agent_1 := agent_1 g;
     agent_2 := agent_2 g; agent_3 := agent_3 g; agent_4 := agent_4 g |}.

Definition set_interaction_toolkit (r : nat) (g : SimpleAgentGenerator) : SimpleAgentGenerator :=
  {| output_dir := output_dir g; mode := mode g; _initialized := _initialized g;
     interaction_toolkit := Some r; agent_1 := agent_1 g;
     agent_2 := agent_2 g; agent_3 := agent_3 g; agent_4 := agent_4 g |}.

Definition set_agent_1 (r : nat) (g : SimpleAgentGenerator) : SimpleAgentGenerator :=
  {| output_dir := output_dir g; mode := mode g; _initialized := _initialized g;
     interaction_toolkit := interaction_toolkit g; agent_1 := Some r;
     agent_2 := agent_2 g; agent_3 := agent_3 g; agent_4 := agent_4 g |}.

Definition set_agent_2 (r : nat) (g : SimpleAgentGenerator) : SimpleAgentGenerator :=
  {| output_dir := output_dir g; mode := mode g; _initialized := _initialized g;
     interaction_toolkit := interaction_toolkit g; agent_1 := agent_1 g;
     agent_2 := Some r; agent_3 := agent_3 g; agent_4 := agent_4 g |}.

Definition set_agent_3 (r : nat) (g : SimpleAgentGenerator) : SimpleAgentGenerator :=
  {| output_dir := output_dir g; mode := mode g; _initialized := _initialized g;
     interaction_toolkit := interaction_toolkit g; agent_1 := agent_1 g;
     agent_2 := agent_2 g; agent_3 := Some r; agent_4 := agent_4 g |}.

Definition set_agent_4 (r : nat) (g : SimpleAgentGenerator) : SimpleAgentGenerator :=
  {| output_dir := output_dir g; mode := mode g; _initialized := _initialized g;
     interaction_toolkit := interaction_toolkit g; agent_1 := agent_1 g;
     agent_2 := agent_2 g; agent_3 := agent_3 g; agent_4 := Some r |}.

Definition set_requirements (v : string) (r : GeneratorTaskRecorder) : GeneratorTaskRecorder :=
  {| requirements := Some v; selected_tools := selected_tools r;
     instructions := instructions r; name := name r;
     _event_queue := _event_queue r; _is_complete := _is_complete r;
     _run_impl_task := _run_impl_task r |}.

Definition set_selected_tools (v : list (string * list string))
    (r : GeneratorTaskRecorder) : GeneratorTaskRecorder :=
  {| requirements := requirements r; selected_tools := Some v;
     instructions := instructions r; name := name r;
     _event_queue := _event_queue r; _is_complete := _is_complete r;
     _run_impl_task := _run_impl_task r |}.

Definition set_instructions (v : string) (r : GeneratorTaskRecorder) : GeneratorTaskRecorder :=
  {| requirements := requirements r; selected_tools := selected_tools r;
     instructions := Some v; name := name r;
     _event_queue := _event_queue r; _is_complete := _is_complete r;
     _run_impl_task := _run_impl_task r |}.

Definition set_name (v : string) (r : GeneratorTaskRecorder) : GeneratorTaskRecorder :=
  {| requirements := requirements r; selected_tools := selected_tools r;
     instructions := instructions r; name := Some v;
     _event_queue := _event_queue r; _is_complete := _is_complete r;
     _run_impl_task := _run_impl_task r |}.

(** [_event_queue.put_nowait(event)] on the unbounded queue. *)
Definition put_nowait (event : Event) (r : GeneratorTaskRecorder) : GeneratorTaskRecorder :=
  {| requirements := requirements r; selected_tools := selected_tools r;
     instructions := instructions r; name := name r;
     _event_queue := (_event_queue r ++ [event])%list;
     _is_complete := _is_complete r; _run_impl_task := _run_impl_task r |}.

Definition set_is_complete (b : bool) (r : GeneratorTaskRecorder) : GeneratorTaskRecorder :=
  {| requirements := requirements r; selected_tools := selected_tools r;
     instructions := instructions r; name := name r;
     _event_queue := _event_queue r; _is_complete := b;
     _run_impl_task := _run_impl_task r |}.


(** ** Pieces of step 2 *)

Definition available_toolkits : list string :=
  ["search"; "document"; "image"; "audio"; "bash"; "tabular"].

(** [tool_to_toolkit_name.update({tool.name: toolkit_name for tool in tools})]. *)
Definition index_tools (toolkit_name : string) (tools : list Tool)
    (tool_to_toolkit_name : gmap string string) : gmap string string :=
  foldl (fun m tool => <[tool_name tool := toolkit_name]> m) tool_to_toolkit_name tools.

(** [f"- {tool.name}: {tool.description}"]. *)
Definition tool_desc (tool : Tool) : string :=
  "- " +:+ tool_name tool +:+ ": " +:+ tool_description tool.

(** The first loop of [step2], without its suspensions: the catalogue lines
    and the reverse index. *)
Fixpoint catalogue (toolkits_map : list (string * list Tool))
    (tools_descs : list string) (tool_to_toolkit_name : gmap string string)
  : list string * gmap string string :=
  match toolkits_map with
  | [] => (tools_descs, tool_to_toolkit_name)
  | (toolkit_name, tools) :: rest =>
      catalogue rest (tools_descs ++ map tool_desc tools)%list
        (index_tools toolkit_name tools tool_to_toolkit_name)
  end.

(** What [for tool_name in selected_tool_names] iterates over. *)
Definition py_iter (v : Json.value) : result (list Json.value) :=
  match v with
  | Json.Arr items => Ok items
  | Json.Obj members => Ok (map (fun kv => Json.Str (fst kv)) members)
  | Json.Str s =>
      Ok (map (fun a => Json.Str (String a EmptyString)) (list_ascii_of_string s))
  | Json.Null => Raise (TypeError "'NoneType' object is not iterable")
  | Json.Bool _ => Raise (TypeError "'bool' object is not iterable")
  | Json.Num literal =>
      Raise (TypeError ("'" +:+ Json.number_type literal +:+ "' object is not iterable"))
  end.

(** [tool_to_toolkit_name[tool_name]], giving also the key as a [str]. *)
Definition owner (tool_to_toolkit_name : gmap string string) (tool_name : Json.value)
  : result (string * string) :=
  match tool_name with
  | Json.Str s =>
      match tool_to_toolkit_name !! s with
      | Some g => Ok (g, s)
      | None => Raise (KeyError tool_name)
      end
  | Json.Arr _ => Raise (TypeError "unhashable type: 'list'")
  | Json.Obj _ => Raise (TypeError "unhashable type: 'dict'")
  | _ => Raise (KeyError tool_name)
  end.

(** The second loop of [step2]:
    [selected_tools[tool_to_toolkit_name[tool_name]].append(tool_name)]. *)
Fixpoint group_tools (tool_to_toolkit_name : gmap string string)
    (selected_tool_names : list Json.value)
    (selected_tools : list (string * list string))
  : result (list (string * list string)) :=
  match selected_tool_names with
  | [] => Ok selected_tools
  | tool_name :: rest =>
      match owner tool_to_toolkit_name tool_name with
      | Ok (g, s) =>
          group_tools tool_to_toolkit_name rest (Dict.append_to g s selected_tools)
      | Raise e => Raise e
      end
  end.

(** ** Pieces of [format_config] *)

(** [f"- /tools/{toolkit_name}@toolkits.{toolkit_name}"]. *)
Definition include_line (toolkit_name : string) : string :=
  "- /tools/" +:+ toolkit_name +:+ "@toolkits." +:+ toolkit_name.

(** [f"{toolkit_name}: {json.dumps({'activated_tools': tool_names})}"]. *)
Definition config_line (toolkit_name : string) (tool_names : list string) : string :=
  toolkit_name +:+ ": " +:+ Json.dumps_activated_tools tool_names.

(** The text [format_config] renders from the values of the four fields. *)
Definition render_config (selected : list (string * list string))
    (agent_name : option string) (instr : string) : result string :=
  let toolkits_includes := map (fun kv => include_line (fst kv)) selected in
  let toolkits_configs := map (fun kv => config_line (fst kv) (snd kv)) selected in
  format CONFIG_TEMPLATE
    [("agent_name", py_str agent_name);
     ("instructions", add_indented_lines (OfStr instr) 4);
     ("toolkits_includes", add_indented_lines (OfList toolkits_includes) 2);
     ("toolkits_configs", add_indented_lines (OfList toolkits_configs) 2)].

(** The name step 4 stores for a generated name, and whether it warns. *)
Definition name_needs_fixing (name : string) : bool :=
  Nat.ltb 50 (String.length name) || Py.contains Py.SP name.

Definition fixed_name (name : string) : string :=
  Py.replace Py.SP "_"%char (Py.slice_to 50 name).

(** ** [SimpleAgentGenerator] *)

Section Generator.

Variable env : Env.

(** Modelled from the spec: [SimpleAgentGenerator.__init__] reads [DIR_ROOT]
    of [..utils], which fixes the output directory; the generator starts in
    local mode, not initialized, with no agent attribute. *)
Definition new_generator (output_directory : string) : SimpleAgentGenerator :=
  {| output_dir := output_directory; mode := "local"; _initialized := false;
     interaction_toolkit := None; agent_1 := None; agent_2 := None;
     agent_3 := None; agent_4 := None |}.

(** Reading an agent attribute of [self]. *)
Definition get_agent (attr : string) (ref : option nat) : M SimpleAgent := fun w =>
  match ref with
  | None => (Raise (AttributeError attr), w)
  | Some r =>
      match objects w !! r with
      | Some (AgentObj a) => (Ok a, w)
      | _ => (Raise (AttributeError attr), w)
      end
  end.

(** The constructors [UserInteractionToolkit], [StopAtTools] and
    [SimpleAgent] of the other modules are allocations here and are taken
    to succeed; the failures of [build] in the model are those of the
    templates and of the listing of the interaction tools. *)
Definition build : M unit :=
  g ← gets self;
  if _initialized g then mret tt
  else
    enter_step 0 ;;
    toolkit ← alloc InteractionToolkitObj;
    set_self (set_interaction_toolkit toolkit) ;;
    instr_1 ← lift (render_template env "requirements_clarification.j2");
    await ListingTools ;;
    tools ← lift (interaction_tools env);
    a1 ← alloc (AgentObj {| agent_name := "clarification_agent";
                            agent_instructions := instr_1;
                            agent_tools := tools;
                            stop_at_tool_names := Some ["final_answer"] |});
    set_self (set_agent_1 a1) ;;
    instr_2 ← lift (render_template env "tools_selection.j2");
    a2 ← alloc (AgentObj {| agent_name := "tool_selection_agent";
                            agent_instructions := instr_2;
                            agent_tools := [];
                            stop_at_tool_names := None |});
    set_self (set_agent_2 a2) ;;
    instr_3 ← lift (render_template env "instructions_generation.j2");
    a3 ← alloc (AgentObj {| agent_name := "instructions_generation_agent";
                            agent_instructions := instr_3;
                            agent_tools := [];
                            stop_at_tool_names := None |});
    set_self (set_agent_3 a3) ;;
    instr_4 ← lift (render_template env "name_generation.j2");
    a4 ← alloc (AgentObj {| agent_name := "name_generation_agent";
                            agent_instructions := instr_4;
                            agent_tools := [];
                            stop_at_tool_names := None |});
    set_self (set_agent_4 a4) ;;
    set_self (set_initialized true).

(** Modelled from the spec: [AgentsUtils.print_stream_events] of [..utils]
    is not among the sources. The spec says of the direct mode only that
    the progress events are delivered by synchronous console printing; what
    is printed for an event is not given, and here it is the event. *)
Definition print_stream_events (events : list Event) : M unit :=
  for_each events print.

Definition _process_streamed (run_result_streaming : RunResultStreaming) : M unit :=
  g ← gets self;
  (if String.eqb (mode g) "local" then
     await Streaming ;;
     print_stream_events (stream_events run_result_streaming)
   else
     for_each (stream_events run_result_streaming)
       (fun event => await Streaming ;; set_recorder (put_nowait event)) ;;
     await Streaming) ;;
  match stream_failure run_result_streaming with
  | Some e => raise e
  | None => mret tt
  end.

Definition step1 : M unit :=
  enter_step 1 ;;
  g ← gets self;
  match interaction_toolkit g with
  | None => raise (AttributeError "interaction_toolkit")
  | Some _ =>
      await AskingUser ;;
      user_input ← lift (ask_user env "Please enter your requirements:");
      agent ← get_agent "agent_1" (agent_1 g);
      async_with
        (let result := run_agent env agent (Some user_input) in
         _process_streamed result ;;
         set_recorder (set_requirements (final_output result)))
  end.

(** The first loop of [step2], with the suspension of each iteration. *)
Fixpoint list_tools (toolkits_map : list (string * list Tool))
    (tools_descs : list string) (tool_to_toolkit_name : gmap string string)
  : M (list string * gmap string string) :=
  match toolkits_map with
  | [] => mret (tools_descs, tool_to_toolkit_name)
  | (toolkit_name, tools) :: rest =>
      await ListingTools ;;
      list_tools rest (tools_descs ++ map tool_desc tools)%list
        (index_tools toolkit_name tools tool_to_toolkit_name)
  end.

(** The reverse index [step2] builds. *)
Definition tool_to_toolkit_name : gmap string string :=
  snd (catalogue (get_toolkits_map env available_toolkits) [] ∅).

Definition step2 : M unit :=
  enter_step 2 ;;
  let toolkits_map := get_toolkits_map env available_toolkits in
  '(tools_descs, tool_to_toolkit_name) ← list_tools toolkits_map [] ∅;
  let tools_str := Py.join Py.NL tools_descs in
  r ← gets task_recorder;
  query ← lift (format TOOL_SELECTION_TEMPLATE
                  [("available_tools", tools_str);
                   ("requirement", py_str (requirements r))]);
  g ← gets self;
  agent ← get_agent "agent_2" (agent_2 g);
  selected_tool_names ←
    async_with
      (let result := run_agent env agent (Some query) in
       _process_streamed result ;;
       let selected_tools := final_output result in
       match json_loads env selected_tools with
       | Some v => mret v
       | None => raise (JSONDecodeError selected_tools)
       end);
  items ← lift (py_iter selected_tool_names);
  selected_tools ← lift (group_tools tool_to_toolkit_name items []);
  set_recorder (set_selected_tools selected_tools).

Definition step3 : M unit :=
  enter_step 3 ;;
  g ← gets self;
  agent ← get_agent "agent_3" (agent_3 g);
  async_with
    (r ← gets task_recorder;
     let result := run_agent env agent (requirements r) in
     _process_streamed result ;;
     set_recorder (set_instructions (final_output result))).

Definition step4 : M unit :=
  enter_step 4 ;;
  g ← gets self;
  agent ← get_agent "agent_4" (agent_4 g);
  async_with
    (r ← gets task_recorder;
     let result := run_agent env agent (requirements r) in
     _process_streamed result ;;
     let name := final_output result in
     if name_needs_fixing name then
       log_warning ("Generated name is too long or contains spaces: " +:+ name) ;;
       set_recorder (set_name (fixed_name name))
     else
       set_recorder (set_name name)).

Definition format_config : M string :=
  r ← gets task_recorder;
  selected ← match selected_tools r with
             | Some d => mret d
             | None => raise (AttributeError "items")
             end;
  instr ← match instructions r with
          | Some s => mret s
          | None => raise (TypeError "'NoneType' object is not iterable")
          end;
  config ← lift (render_config selected (name r) instr);
  g ← gets self;
  let ofn := joinpath env (output_dir g) (py_str (name r) +:+ ".yaml") in
  (if can_write env ofn then write_file ofn config else raise (OSError ofn)) ;;
  mret ofn.

(** The [trace] context of the agent runtime, entered by [run] and
    [run_streamed], touches nothing of the world modelled here and is left
    out. *)
Definition run : M unit :=
  build ;;
  set_recorder (fun _ => new_recorder) ;;
  step1 ;;
  step2 ;;
  step3 ;;
  step4 ;;
  ofn ← format_config;
  print ("Config saved to " +:+ ofn).


Definition _start_streaming : M string :=
  build ;;
  step1 ;;
  step2 ;;
  step3 ;;
  step4 ;;
  ofn ← format_config;
  set_recorder (set_is_complete true) ;;
  print ("Config saved to " +:+ ofn) ;;
  r ← gets task_recorder;
  print ("task_recorder: " +:+ show_recorder env r) ;;
  mret ofn.

End Generator.

(** ** A starting world and a sample environment *)

Definition initial_world (output_directory : string) : World :=
  {| self := new_generator output_directory; task_recorder := new_recorder;
     objects := []; files := ∅; warnings := []; stdout := []; scheduled := [];
     current_step := 0; suspensions := [] |}.

Definition q (s : string) : string :=
  String Json.DQUOTE (s +:+ String Json.DQUOTE EmptyString).

Definition sample_requirements : string :=
  "I need an agent that can search the web and summarize PDFs".

Definition sample_toolkits (names : list string) : list (string * list Tool) :=
  map (fun n =>
         (n,
          if String.eqb n "search" then
            [{| tool_name := "web_search"; tool_description := "search the web" |};
             {| tool_name := "web_qa"; tool_description := "ask a page" |}]
          else if String.eqb n "document" then
            [{| tool_name := "pdf_reader"; tool_description := "read a PDF" |}]
          else if String.eqb n "bash" then
            [{| tool_name := "run_bash"; tool_description := "run a command" |}]
          else []))
      names.

(** An environment in which the user and the agents answer as in the
    round-trip scenario. [selection] is the text the tool-selection agent
    returns, [decoded] what [json.loads] gives for it, [generated_name] what
    the name-generation agent returns. *)
Definition sample_env (selection : string) (decoded : option Json.value)
    (generated_name : string) : Env :=
  {| ask_user := fun _ => Ok "an agent for the web and PDFs";
     interaction_tools :=
       Ok [{| tool_name := "ask_user"; tool_description := "ask the user" |};
           {| tool_name := "final_answer"; tool_description := "give the answer" |}];
     render_template := fun n => Ok ("rendered " +:+ n);
     get_toolkits_map := sample_toolkits;
     run_agent := fun a _ =>
       {| stream_events := ["start: " +:+ agent_name a; "end: " +:+ agent_name a];
          stream_failure := None;
          final_output :=
            if String.eqb (agent_name a) "clarification_agent" then sample_requirements
            else if String.eqb (agent_name a) "tool_selection_agent" then selection
            else if String.eqb (agent_name a) "instructions_generation_agent" then
              "You search the web." +:+ Py.NL +:+ "You summarize PDFs."
            else generated_name |};
     json_loads := fun s => if String.eqb s selection then decoded else None;
     joinpath := fun d f => d +:+ "/" +:+ f;
     can_write := fun _ => true;
     show_recorder := fun r => py_str (name r) |}.

Definition round_trip_selection : string :=
  "[" +:+ q "web_search" +:+ ", " +:+ q "pdf_reader" +:+ "]".

Definition round_trip_env : Env :=
  sample_env round_trip_selection
    (Some (Json.Arr [Json.Str "web_search"; Json.Str "pdf_reader"]))
    "web_pdf_agent".

(** The world a computation leaves. *)
Definition after {A} (m : M A) (w : World) : World := (m w).2.

Definition sample_world : World := initial_world "configs/agents/generated".

(** What the sample tool-selection agent's run looks like when its final
    output is [selection]. *)
Definition sample_selection_run (selection : string) : RunResultStreaming :=
  {| stream_events := ["start: tool_selection_agent"; "end: tool_selection_agent"];
     stream_failure := None;
     final_output := selection |}.

(** A selection that names one tool twice. *)
Definition repeated_names : list string := ["web_search"; "pdf_reader"; "web_search"].

Definition repeated_selection : string :=
  "[" +:+ q "web_search" +:+ ", " +:+ q "pdf_reader" +:+ ", " +:+ q "web_search" +:+ "]".

Definition repeated_env : Env :=
  sample_env repeated_selection (Some (Json.Arr (map Json.Str repeated_names)))
    "web_pdf_agent".

(** A selection that names a tool no toolkit has. *)
Definition unknown_names : list string := ["web_search"; "no_such_tool"].

Definition unknown_selection : string :=
  "[" +:+ q "web_search" +:+ ", " +:+ q "no_such_tool" +:+ "]".

Definition unknown_env : Env :=
  sample_env unknown_selection (Some (Json.Arr (map Json.Str unknown_names)))
    "web_pdf_agent".

(** A tool-selection agent that answers in prose. *)
Definition prose_selection : string := "I would pick web_search and pdf_reader.".

Definition prose_env : Env := sample_env prose_selection None "web_pdf_agent".

(** A tool-selection agent that answers with a JSON object instead of a
    list: [json.loads] decodes it to a [dict]. *)
Definition object_selection : string := "{" +:+ q "web_search" +:+ ": true}".

Definition object_env : Env :=
  sample_env object_selection (Some (Json.Obj [("web_search", Json.Bool true)]))
    "web_pdf_agent".

(** A name-generation agent that answers with the long name of the
    sanitization scenario. *)
Definition long_name : string :=
  "a very long name with spaces that exceeds fifty characters total".

Definition long_name_env : Env :=
  sample_env round_trip_selection
    (Some (Json.Arr [Json.Str "web_search"; Json.Str "pdf_reader"]))
    long_name.

(** ** Specification vocabulary *)

(** Weakest precondition of a computation: [Q] for a normal result, [E] for
    a raised exception. *)
Definition wp {A} (m : M A) (Q : A → World → Prop) (E : Exn → World → Prop)
    (w : World) : Prop :=
  match m w with
  | (Ok a, w') => Q a w'
  | (Raise e, w') => E e w'
  end.

(** Whether the output field of step [j] is set in a recorder. *)
Definition output_set (j : nat) (r : GeneratorTaskRecorder) : bool :=
  match j with
  | 1 => bool_decide (is_Some (requirements r))
  | 2 => bool_decide (is_Some (selected_tools r))
  | 3 => bool_decide (is_Some (instructions r))
  | 4 => bool_decide (is_Some (name r))
  | _ => false
  end.

(** Two recorders agree on everything but the event queue and the output
    field of step [k]; with [k = 0], on everything but the event queue. *)
Definition agree_except (k : nat) (r r' : GeneratorTaskRecorder) : Prop :=
  (k = 1 ∨ requirements r' = requirements r) ∧
  (k = 2 ∨ selected_tools r' = selected_tools r) ∧
  (k = 3 ∨ instructions r' = instructions r) ∧
  (k = 4 ∨ name r' = name r) ∧
  _is_complete r' = _is_complete r ∧
  _run_impl_task r' = _run_impl_task r.

(** What a step leaves alone: the generator, the object store, the files
    and the task queue. *)
Definition same_surroundings (w w' : World) : Prop :=
  self w' = self w ∧ objects w' = objects w ∧ files w' = files w ∧
  scheduled w' = scheduled w.

(** The suspensions of [w'] are those of [w] followed by suspensions that
    all satisfy [P]. *)
Definition suspended_since (w w' : World) (P : Suspension → Prop) : Prop :=
  ∃ new, suspensions w' = (suspensions w ++ new)%list ∧ Forall P new.

(** What draining a stream does to the world: events go to the console or
    to the event queue, and each suspension is a [Streaming] one that sees
    the outputs as they were. *)
Definition stream_footprint (w w' : World) : Prop :=
  same_surroundings w w' ∧ warnings w' = warnings w ∧
  current_step w' = current_step w ∧
  agree_except 0 (task_recorder w) (task_recorder w') ∧
  suspended_since w w'
    (λ s, in_step s = current_step w ∧ at_point s = Streaming ∧
          agree_except 0 (task_recorder w) (seen s)).

(** What step [k] does to the world, however it ends: only the output field
    of step [k] (and the event queue) changes, every suspension belongs to
    step [k], and the output field of step [k] is still as before at every
    suspension other than the exit from the agent context. *)
Definition step_footprint (k : nat) (w w' : World) : Prop :=
  same_surroundings w w' ∧
  agree_except k (task_recorder w) (task_recorder w') ∧
  suspended_since w w'
    (λ s, in_step s = k ∧ agree_except k (task_recorder w) (seen s) ∧
          (at_point s ≠ Exiting → agree_except 0 (task_recorder w) (seen s))).

(** The tool [t] belongs to the group [g] according to a reverse index. *)
Definition owned_by (index : gmap string string) (g t : string) : Prop :=
  index !! t = Some g.

#[global] Instance owned_by_dec index g t : Decision (owned_by index g t).
Proof. unfold owned_by. apply _. Defined.

(** The agent an attribute of [self] refers to, if it refers to one. *)
Definition agent_at (store : list Object) (ref : option nat) : option SimpleAgent :=
  match ref with
  | None => None
  | Some r =>
      match store !! r with
      | Some (AgentObj a) => Some a
      | _ => None
      end
  end.

(** The name step 4 stores for a generated name. *)
Definition stored_name (generated : string) : string :=
  if name_needs_fixing generated then fixed_name generated else generated.

(** The query step 2 sends: [TOOL_SELECTION_TEMPLATE] with its two fields
    filled in. *)
Definition selection_query (available_tools requirement : string) : string :=
  "<available_tools>" +:+ Py.NL +:+ available_tools +:+ Py.NL +:+
  "</available_tools>" +:+ Py.NL +:+ "<requirement>" +:+ Py.NL +:+
  requirement +:+ Py.NL +:+ "</requirement>".

(** The run of the tool-selection agent that step 2 starts in a world. *)
Definition selection_run (env : Env) (w : World) : result RunResultStreaming :=
  let tools_descs := fst (catalogue (get_toolkits_map env available_toolkits) [] ∅) in
  let query := selection_query (Py.join Py.NL tools_descs)
                 (py_str (requirements (task_recorder w))) in
  match agent_at (objects w) (agent_2 (self w)) with
  | None => Raise (AttributeError "agent_2")
  | Some agent => Ok (run_agent env agent (Some query))
  end.

(** What step 2 computes in a world: the grouped selection, or the
    exception it ends with. *)
Definition step2_outcome (env : Env) (w : World)
  : result (list (string * list string)) :=
  match selection_run env w with
  | Raise e => Raise e
  | Ok rr =>
      match stream_failure rr with
      | Some e => Raise e
      | None =>
          match json_loads env (final_output rr) with
          | None => Raise (JSONDecodeError (final_output rr))
          | Some v =>
              match py_iter v with
              | Raise e => Raise e
              | Ok items => group_tools (tool_to_toolkit_name env) items []
              end
          end
      end
  end.

(** [CONFIG_TEMPLATE] with its four fields filled in. *)
Definition config_document
    (toolkits_includes toolkits_configs agent_name instructions : string) : string :=
  Py.NL +:+ "# @package _global_" +:+ Py.NL +:+
  "defaults:" +:+ Py.NL +:+
  "  - /model/base@model" +:+ Py.NL +:+
  toolkits_includes +:+ Py.NL +:+
  "  - _self_" +:+ Py.NL +:+
  Py.NL +:+
  "toolkits:" +:+ Py.NL +:+
  toolkits_configs +:+ Py.NL +:+
  Py.NL +:+
  "agent:" +:+ Py.NL +:+
  "  name: " +:+ agent_name +:+ Py.NL +:+
  "  instructions: |" +:+ Py.NL +:+
  instructions +:+ Py.NL.

(** The document [format_config] renders for a recorder whose fields are
    set. *)
Definition rendered (selected : list (string * list string))
    (agent_name instr : string) : string :=
  config_document
    (add_indented_lines (OfList (map (fun kv => include_line (fst kv)) selected)) 2)
    (add_indented_lines
       (OfList (map (fun kv => config_line (fst kv) (snd kv)) selected)) 2)
    agent_name
    (add_indented_lines (OfStr instr) 4).

(** The lines [add_indented_lines] writes for a list of lines: each line
    behind [indent] spaces, or one empty line when the list is empty. *)
Definition indented_block (indent : nat) (ls : list string) : list string :=
  match ls with
  | [] => [EmptyString]
  | _ => map (fun l => Py.times Py.SP indent +:+ l) ls
  end.


(** A line of the [defaults] list that includes a tool group. *)
Definition is_include_line (l : string) : bool := Py.startswith "  - /tools/" l.

(** The part of [run] that comes before step 2. *)
Definition run_until_step2 (env : Env) : M unit :=
  build env ;;
  set_recorder (fun _ => new_recorder) ;;
  step1 env.

(** The part of [run] that comes before step 4, and before
    [format_config]. *)
Definition run_until_step4 (env : Env) : M unit :=
  run_until_step2 env ;; step2 env ;; step3 env.

Definition run_until_format (env : Env) : M unit :=
  run_until_step4 env ;; step4 env.

(** What [build] does to the world, however it ends. *)
Definition build_footprint (w w' : World) : Prop :=
  files w' = files w ∧ task_recorder w' = task_recorder w ∧
  scheduled w' = scheduled w ∧ warnings w' = warnings w ∧
  suspended_since w w'
    (λ s, in_step s = 0 ∧ at_point s = ListingTools ∧ seen s = task_recorder w).




(** ** Vocabulary of the further properties *)

(** The toolkit a tool name ends under when the reverse index is filled
    toolkit by toolkit: the last toolkit that lists it. *)
Fixpoint last_owner (toolkits_map : list (string * list Tool)) (t : string)
  : option string :=
  match toolkits_map with
  | [] => None
  | (toolkit_name, tools) :: rest =>
      match last_owner rest t with
      | Some g => Some g
      | None =>
          if decide (t ∈ map tool_name tools) then Some toolkit_name else None
      end
  end.

(** The distinct elements of a list in the order of their first occurrence,
    leaving out those already [seen]. *)
Fixpoint first_occurrences (l seen : list string) : list string :=
  match l with
  | [] => []
  | x :: l' =>
      if decide (x ∈ seen) then first_occurrences l' seen
      else x :: first_occurrences l' (x :: seen)
  end.

(** A world whose generator has been switched to the mode of the web UI. *)
Definition webui_world : World :=
  {| self := {| output_dir := "configs/agents/generated"; mode := "webui";
                _initialized := false; interaction_toolkit := None;
                agent_1 := None; agent_2 := None; agent_3 := None;
                agent_4 := None |};
     task_recorder := new_recorder;
     objects := []; files := ∅; warnings := []; stdout := []; scheduled := [];
     current_step := 0; suspensions := [] |}.

(** An environment in which the template of the name-generation agent is
    missing. *)
Definition missing_template_env : Env :=
  {| ask_user := ask_user round_trip_env;
     interaction_tools := interaction_tools round_trip_env;
     render_template := fun n =>
       if String.eqb n "name_generation.j2"
       then Raise (ExternalError "TemplateNotFound")
       else Ok ("rendered " +:+ n);
     get_toolkits_map := get_toolkits_map round_trip_env;
     run_agent := run_agent round_trip_env;
     json_loads := json_loads round_trip_env;
     joinpath := joinpath round_trip_env;
     can_write := can_write round_trip_env;
     show_recorder := show_recorder round_trip_env |}.

(** An environment in which the user cannot be asked. *)
Definition silent_user_env : Env :=
  {| ask_user := fun _ => Raise (ExternalError "EOFError");
     interaction_tools := interaction_tools round_trip_env;
     render_template := render_template round_trip_env;
     get_toolkits_map := get_toolkits_map round_trip_env;
     run_agent := run_agent round_trip_env;
     json_loads := json_loads round_trip_env;
     joinpath := joinpath round_trip_env;
     can_write := can_write round_trip_env;
     show_recorder := show_recorder round_trip_env |}.

(** A tool-selection agent that answers [null], and one that selects
    nothing. *)
Definition null_env : Env := sample_env "null" (Some Json.Null) "web_pdf_agent".

Definition empty_selection_env : Env :=
  sample_env "[]" (Some (Json.Arr [])) "web_pdf_agent".

(** The part of [run] before step 3. *)
Definition run_until_step3 (env : Env) : M unit :=
  run_until_step2 env ;; step2 env.

(** The world in which [run] starts step 1. *)
Definition run_until_step1 (env : Env) : M unit :=
  build env ;; set_recorder (fun _ => new_recorder).

(** * Proofs *)

Section DictFacts.
Context {A : Type}.
Implicit Types (d : list (string * list A)) (k g : string).

Lemma eqb_decide (a b : string) : String.eqb a b = bool_decide (a = b).
Proof.
  destruct (String.eqb_spec a b).
  - by rewrite bool_decide_true.
  - by rewrite bool_decide_false.
Qed.

Lemma lookup_app_fresh {V} (d : list (string * V)) k k' v :
  Dict.lookup k (d ++ [(k', v)]) =
  match Dict.lookup k d with
  | Some x => Some x
  | None => if decide (k' = k) then Some v else None
  end.
Proof.
  induction d as [|[k0 v0] d IH]; simpl.
  - rewrite eqb_decide. by repeat case_bool_decide; case_decide.
  - by destruct (String.eqb k0 k).
Qed.

Lemma lookup_alter {V} (f : V → V) (d : list (string * V)) k k' :
  Dict.lookup k (Dict.alter f k' d) =
  if decide (k' = k) then f <$> Dict.lookup k d else Dict.lookup k d.
Proof.
  induction d as [|[k0 v0] d IH]; simpl.
  - by case_decide.
  - rewrite (eqb_decide k0 k'). case_bool_decide as H0; simpl.
    + rewrite (eqb_decide k0 k). subst k0.
      case_decide; [by rewrite bool_decide_true|by rewrite bool_decide_false].
    + rewrite (eqb_decide k0 k). case_bool_decide; [|done].
      subst k0. by rewrite decide_False.
Qed.

Lemma get_list_append_to d g k (x : A) :
  Dict.get_list g (Dict.append_to k x d) =
  if decide (k = g) then Dict.get_list g d ++ [x] else Dict.get_list g d.
Proof.
  unfold Dict.get_list, Dict.append_to.
  destruct (Dict.lookup k d) as [l|] eqn:Hk.
  - rewrite lookup_alter. case_decide; [|done]. subst. by rewrite Hk.
  - rewrite lookup_app_fresh. case_decide.
    + subst. by rewrite Hk.
    + by destruct (Dict.lookup g d).
Qed.

Lemma keys_alter {V} (f : V → V) k (d : list (string * V)) :
  Dict.keys (Dict.alter f k d) = Dict.keys d.
Proof.
  induction d as [|[k0 v0] d IH]; [done|]. simpl.
  destruct (String.eqb k0 k); simpl; [done|]. by f_equal.
Qed.

Lemma lookup_None_keys {V} k (d : list (string * V)) :
  Dict.lookup k d = None ↔ k ∉ Dict.keys d.
Proof.
  induction d as [|[k0 v0] d IH]; simpl.
  - split; [intros _; apply not_elem_of_nil|done].
  - rewrite eqb_decide. case_bool_decide as H0.
    + subst. split; [done|]. intros []. apply elem_of_cons. by left.
    + rewrite IH, not_elem_of_cons.
      split; [intros ?; split; [by intros ->|done] | by intros [_ ?]].
Qed.

Lemma keys_append_to d k (x : A) :
  Dict.keys (Dict.append_to k x d) =
  if decide (k ∈ Dict.keys d) then Dict.keys d else Dict.keys d ++ [k].
Proof.
  unfold Dict.append_to.
  destruct (Dict.lookup k d) as [l|] eqn:Hk.
  - rewrite keys_alter. rewrite decide_True; [done|].
    destruct (decide (k ∈ Dict.keys d)) as [|Hn]; [done|].
    apply lookup_None_keys in Hn. congruence.
  - apply lookup_None_keys in Hk. rewrite decide_False; [|done].
    unfold Dict.keys. by rewrite map_app.
Qed.

Lemma NoDup_keys_append_to d k (x : A) :
  NoDup (Dict.keys d) → NoDup (Dict.keys (Dict.append_to k x d)).
Proof.
  intros Hnd. rewrite keys_append_to. case_decide; [done|].
  apply NoDup_app. split_and!; [done| |apply NoDup_singleton].
  intros y Hy Hy'. apply list_elem_of_singleton in Hy'. by subst.
Qed.

End DictFacts.

Section Grouping.
Variable idx : gmap string string.

Lemma owner_Ok item g s :
  owner idx item = Ok (g, s) ↔ item = Json.Str s ∧ idx !! s = Some g.
Proof.
  destruct item as [| | |s'| |]; simpl; try (split; [done|by intros [? _]]).
  destruct (idx !! s') as [g'|] eqn:Hs.
  - split; [by intros [= <- <-]|]. intros [[= ->] ?]. congruence.
  - split; [done|]. intros [[= ->] ?]. congruence.
Qed.

Lemma group_tools_Ok items acc d :
  group_tools idx items acc = Ok d →
  ∃ names, items = map Json.Str names ∧
    Forall (λ t, is_Some (idx !! t)) names ∧
    (∀ g, Dict.get_list g d = Dict.get_list g acc ++ filter (owned_by idx g) names) ∧
    (NoDup (Dict.keys acc) → NoDup (Dict.keys d)) ∧
    (∀ g, g ∈ Dict.keys d → g ∈ Dict.keys acc ∨ ∃ t, t ∈ names ∧ idx !! t = Some g).
Proof.
  revert acc. induction items as [|item items IH]; intros acc; simpl.
  - intros [= ->]. exists []. split_and!; [done|done| |done|by left].
    intros g. by rewrite filter_nil, app_nil_r.
  - destruct (owner idx item) as [[g0 s]|e] eqn:Ho; [|done].
    apply owner_Ok in Ho as [-> Hs]. intros Hd.
    destruct (IH _ Hd) as (names & -> & Hall & Hget & Hnd & Hkeys).
    exists (s :: names). split_and!.
    + done.
    + constructor; [by eexists|done].
    + intros g. rewrite Hget, get_list_append_to, filter_cons.
      unfold owned_by at 2. case_decide as Hg.
      * subst g0. rewrite decide_True by done. by rewrite <-app_assoc.
      * rewrite decide_False; [done|]. congruence.
    + intros ?. by apply Hnd, NoDup_keys_append_to.
    + intros g Hg. destruct (Hkeys g Hg) as [Hin|(t & ? & ?)].
      * rewrite keys_append_to in Hin. case_decide; [by left|].
        apply elem_of_app in Hin as [?|Hin]; [by left|].
        apply list_elem_of_singleton in Hin as ->. right. exists s.
        split; [apply elem_of_cons; by left|done].
      * right. exists t. split; [apply elem_of_cons; by right|done].
Qed.

Lemma group_tools_Raise names acc t :
  t ∈ names → idx !! t = None →
  ∃ t', group_tools idx (map Json.Str names) acc = Raise (KeyError (Json.Str t'))
        ∧ t' ∈ names ∧ idx !! t' = None.
Proof.
  revert acc. induction names as [|s names IH]; intros acc Hin Hnone.
  - by apply elem_of_nil in Hin.
  - simpl. destruct (idx !! s) as [g|] eqn:Hs.
    + apply elem_of_cons in Hin as [->|Hin]; [congruence|].
      destruct (IH (Dict.append_to g s acc) Hin Hnone) as (t' & Ht' & ? & ?).
      exists t'. split_and!; [done|apply elem_of_cons; by right|done].
    + exists s. split_and!; [done|apply elem_of_cons; by left|done].
Qed.

End Grouping.

(** ** Rules of the weakest precondition *)

Section WpRules.
Context {A B : Type}.

Lemma wp_bind (m : M A) (k : A → M B) Q E w :
  wp (m ≫= k) Q E w = wp m (λ a, wp (k a) Q E) E w.
Proof. unfold wp, mbind, M_bind. by destruct (m w) as [[a|e] w']. Qed.

Lemma wp_mono (m : M A) (Q Q' : A → World → Prop) (E E' : Exn → World → Prop) w :
  wp m Q E w →
  (∀ a w', Q a w' → Q' a w') → (∀ e w', E e w' → E' e w') →
  wp m Q' E' w.
Proof. unfold wp. destruct (m w) as [[a|e] w']; auto. Qed.

Lemma wp_finally (body : M A) (final : M unit) Q E w :
  wp (finally body final) Q E w
  = wp body (λ a w1, wp final (λ _, Q a) E w1) (λ e w1, E e (final w1).2) w.
Proof.
  unfold wp, finally. destruct (body w) as [[a|e] w1]; [|done].
  by destruct (final w1) as [[[]|e] w2].
Qed.

Lemma wp_elim (m : M A) Q E w r w' :
  wp m Q E w → m w = (r, w') →
  match r with Ok a => Q a w' | Raise e => E e w' end.
Proof. unfold wp. intros H Hm. by rewrite Hm in H. Qed.

Lemma wp_intro (m : M A) (Q : A → World → Prop) (E : Exn → World → Prop) w :
  (∀ r w', m w = (r, w') → match r with Ok a => Q a w' | Raise e => E e w' end) →
  wp m Q E w.
Proof. unfold wp. intros H. destruct (m w) as [r w'] eqn:Hm. by apply (H r w'). Qed.

End WpRules.

Lemma wp_async_with {A} (body : M A) Q E w :
  wp (async_with body) Q E w
  = wp (await Entering)
      (λ _, wp body (λ a w1, wp (await Exiting) (λ _, Q a) E w1)
                    (λ e w1, E e (await Exiting w1).2)) E w.
Proof.
  unfold async_with. rewrite wp_bind. unfold wp at 1 3. simpl.
  by rewrite wp_finally.
Qed.

(** ** Agreement of recorders and footprints *)

Lemma agree_except_refl k r : agree_except k r r.
Proof. unfold agree_except. intuition congruence. Qed.

Lemma agree_except_trans k r1 r2 r3 :
  agree_except k r1 r2 → agree_except k r2 r3 → agree_except k r1 r3.
Proof. unfold agree_except. intuition congruence. Qed.

Lemma agree_except_weaken k r1 r2 : agree_except 0 r1 r2 → agree_except k r1 r2.
Proof. unfold agree_except. intuition congruence. Qed.

Lemma same_surroundings_refl w : same_surroundings w w.
Proof. by unfold same_surroundings. Qed.

Lemma same_surroundings_trans w1 w2 w3 :
  same_surroundings w1 w2 → same_surroundings w2 w3 → same_surroundings w1 w3.
Proof. unfold same_surroundings. intuition congruence. Qed.

Lemma suspended_since_refl w P : suspended_since w w P.
Proof. exists []. by rewrite app_nil_r. Qed.

Lemma suspended_since_trans w1 w2 w3 (P1 P2 P : Suspension → Prop) :
  suspended_since w1 w2 P1 → suspended_since w2 w3 P2 →
  (∀ s, P1 s → P s) → (∀ s, P2 s → P s) →
  suspended_since w1 w3 P.
Proof.
  intros (n1 & E1 & F1) (n2 & E2 & F2) H1 H2. exists (n1 ++ n2).
  split; [by rewrite E2, E1, app_assoc|].
  apply Forall_app. split; eapply Forall_impl; eauto.
Qed.

Lemma stream_footprint_refl w : stream_footprint w w.
Proof.
  unfold stream_footprint.
  split_and!; auto using same_surroundings_refl, agree_except_refl, suspended_since_refl.
Qed.

Lemma stream_footprint_trans w1 w2 w3 :
  stream_footprint w1 w2 → stream_footprint w2 w3 → stream_footprint w1 w3.
Proof.
  intros (S1 & W1 & C1 & A1 & U1) (S2 & W2 & C2 & A2 & U2).
  split_and!; [by eapply same_surroundings_trans|congruence|congruence
              |by eapply agree_except_trans|].
  eapply suspended_since_trans; [done|done|by intros s ?|].
  intros s (? & ? & ?). split_and!; [congruence|done|by eapply agree_except_trans].
Qed.

(** ** Draining a stream *)

Section Streams.

Lemma for_each_footprint {A} (body : A → M unit) (xs : list A) :
  (∀ x w, ∃ w', body x w = (Ok tt, w') ∧ stream_footprint w w') →
  ∀ w, ∃ w', for_each xs body w = (Ok tt, w') ∧ stream_footprint w w'.
Proof.
  intros Hbody. induction xs as [|x xs IH]; intros w; simpl.
  - exists w. split; [done|apply stream_footprint_refl].
  - destruct (Hbody x w) as (w1 & H1 & F1).
    destruct (IH w1) as (w2 & H2 & F2).
    exists w2. unfold mbind, M_bind. rewrite H1.
    split; [done|by eapply stream_footprint_trans].
Qed.

Lemma print_footprint msg w :
  ∃ w', print msg w = (Ok tt, w') ∧ stream_footprint w w'.
Proof.
  eexists. split; [reflexivity|].
  unfold stream_footprint, same_surroundings; simpl.
  split_and!; auto using agree_except_refl, suspended_since_refl.
  exists []. by rewrite app_nil_r.
Qed.

Lemma await_streaming_footprint w :
  ∃ w', await Streaming w = (Ok tt, w') ∧ stream_footprint w w'.
Proof.
  eexists. split; [reflexivity|].
  unfold stream_footprint, same_surroundings; simpl.
  split_and!; auto using agree_except_refl.
  eexists. split; [done|].
  constructor; [|constructor]. simpl.
  split_and!; [done|done|apply agree_except_refl].
Qed.

Lemma put_event_footprint event w :
  ∃ w', (await Streaming ;; set_recorder (put_nowait event)) w = (Ok tt, w')
        ∧ stream_footprint w w'.
Proof.
  eexists. split; [reflexivity|].
  unfold stream_footprint, same_surroundings, agree_except; simpl.
  split_and!; auto.
  eexists. split; [done|].
  constructor; [|constructor]. simpl. split_and!; auto.
Qed.

Lemma process_streamed_spec rr w :
  wp (_process_streamed rr)
     (λ _ w', stream_footprint w w' ∧ stream_failure rr = None)
     (λ e w', stream_footprint w w' ∧ stream_failure rr = Some e) w.
Proof.
  assert (∃ w', (if String.eqb (mode (self w)) "local"
                 then await Streaming ;; print_stream_events (stream_events rr)
                 else for_each (stream_events rr)
                        (λ event, await Streaming ;; set_recorder (put_nowait event)) ;;
                      await Streaming) w = (Ok tt, w')
                ∧ stream_footprint w w') as (w1 & H1 & F1).
  { destruct (String.eqb (mode (self w)) "local").
    - destruct (await_streaming_footprint w) as (wa & Ha & Fa).
      unfold print_stream_events.
      destruct (for_each_footprint print (stream_events rr) print_footprint wa)
        as (wb & Hb & Fb).
      exists wb. unfold mbind, M_bind. rewrite Ha.
      split; [done|by eapply stream_footprint_trans].
    - destruct (for_each_footprint
                  (λ event, await Streaming ;; set_recorder (put_nowait event))
                  (stream_events rr) put_event_footprint w) as (wa & Ha & Fa).
      destruct (await_streaming_footprint wa) as (wb & Hb & Fb).
      exists wb. unfold mbind at 1, M_bind at 1. rewrite Ha.
      split; [done|by eapply stream_footprint_trans]. }
  unfold _process_streamed. rewrite wp_bind. unfold wp at 1. simpl.
  rewrite wp_bind. unfold wp at 1. rewrite H1.
  destruct (stream_failure rr); by unfold wp; simpl.
Qed.

End Streams.

(** ** The steps *)

Lemma step_footprint_intro k w w2 w' pre new post :
  same_surroundings w w2 → same_surroundings w2 w' →
  agree_except 0 (task_recorder w) (task_recorder w2) →
  agree_except k (task_recorder w2) (task_recorder w') →
  suspensions w2 = (suspensions w ++ pre) ++ new →
  suspensions w' = suspensions w2 ++ post →
  Forall (λ s, in_step s = k ∧ at_point s ≠ Exiting ∧
               agree_except 0 (task_recorder w) (seen s)) pre →
  Forall (λ s, in_step s = k ∧ at_point s = Streaming ∧
               agree_except 0 (task_recorder w) (seen s)) new →
  Forall (λ s, in_step s = k ∧ at_point s = Exiting ∧
               agree_except k (task_recorder w2) (seen s)) post →
  step_footprint k w w'.
Proof.
  intros S1 S2 A1 A2 E1 E2 Fpre Fnew Fpost.
  split_and!.
  - by eapply same_surroundings_trans.
  - eapply agree_except_trans; [by apply agree_except_weaken|done].
  - exists (pre ++ new ++ post). split.
    + rewrite E2, E1. by rewrite <-!app_assoc.
    + rewrite !Forall_app. split_and!.
      * eapply Forall_impl; [exact Fpre|]. intros s (? & ? & ?).
        split_and!; [done|by apply agree_except_weaken|done].
      * eapply Forall_impl; [exact Fnew|]. intros s (? & Hp & ?).
        split_and!; [done|by apply agree_except_weaken|done].
      * eapply Forall_impl; [exact Fpost|]. intros s (? & ? & ?).
        split_and!; [done| |done].
        eapply agree_except_trans; [by apply agree_except_weaken|done].
Qed.

Lemma footprint_after_exit k w w2 pre new r' wa so :
  same_surroundings w w2 → current_step w2 = k →
  agree_except 0 (task_recorder w) (task_recorder w2) →
  suspensions w2 = (suspensions w ++ pre) ++ new →
  Forall (λ s, in_step s = k ∧ at_point s ≠ Exiting ∧
               agree_except 0 (task_recorder w) (seen s)) pre →
  Forall (λ s, in_step s = k ∧ at_point s = Streaming ∧
               agree_except 0 (task_recorder w) (seen s)) new →
  agree_except k (task_recorder w2) r' →
  step_footprint k w
    {| self := self w2; task_recorder := r'; objects := objects w2;
       files := files w2; warnings := wa; stdout := so;
       scheduled := scheduled w2; current_step := current_step w2;
       suspensions := suspensions w2 ++
         [{| in_step := current_step w2; at_point := Exiting; seen := r' |}] |}.
Proof.
  intros S C A Hs Fpre Fnew Hr'.
  eapply (step_footprint_intro k w w2 _ pre new [_]);
    [exact S|done|done|done|exact Hs|done|done|done|].
  constructor; [|constructor]. simpl. by split_and!.
Qed.

Lemma footprint_not_started k w so :
  step_footprint k w
    {| self := self w; task_recorder := task_recorder w; objects := objects w;
       files := files w; warnings := warnings w; stdout := so;
       scheduled := scheduled w; current_step := k;
       suspensions := suspensions w |}.
Proof.
  unfold step_footprint, same_surroundings. simpl.
  split_and!; auto using agree_except_refl.
  exists []. by rewrite app_nil_r.
Qed.

Lemma footprint_before_stream k w pre wa so cs :
  Forall (λ s, in_step s = k ∧ at_point s ≠ Exiting ∧
               agree_except 0 (task_recorder w) (seen s)) pre →
  step_footprint k w
    {| self := self w; task_recorder := task_recorder w; objects := objects w;
       files := files w; warnings := wa; stdout := so;
       scheduled := scheduled w; current_step := cs;
       suspensions := suspensions w ++ pre |}.
Proof.
  intros Fpre.
  unfold step_footprint, same_surroundings. simpl.
  split_and!; auto using agree_except_refl.
  exists pre. split; [done|].
  eapply Forall_impl; [exact Fpre|]. intros s (? & ? & ?).
  split_and!; [done|by apply agree_except_weaken|done].
Qed.

#[local] Arguments format : simpl never.

Lemma format_selection available_tools requirement :
  format TOOL_SELECTION_TEMPLATE
    [("available_tools", available_tools); ("requirement", requirement)]
  = Ok (selection_query available_tools requirement).
Proof. reflexivity. Qed.

Section Steps.
Variable env : Env.

Lemma get_agent_eq attr ref w :
  get_agent attr ref w =
  (match agent_at (objects w) ref with
   | Some a => Ok a
   | None => Raise (AttributeError attr)
   end, w).
Proof.
  unfold get_agent, agent_at. destruct ref as [r|]; [|done].
  by destruct (objects w !! r) as [[|a]|].
Qed.

Lemma wp_get_agent attr ref Q E w :
  wp (get_agent attr ref) Q E w =
  match agent_at (objects w) ref with
  | Some a => Q a w
  | None => E (AttributeError attr) w
  end.
Proof. unfold wp. rewrite get_agent_eq. by destruct (agent_at (objects w) ref). Qed.

Lemma step4_spec w :
  wp (step4 env)
     (λ _ w', step_footprint 4 w w' ∧
        ∃ a, agent_at (objects w) (agent_4 (self w)) = Some a ∧
          let generated :=
            final_output (run_agent env a (requirements (task_recorder w))) in
          name (task_recorder w') = Some (stored_name generated) ∧
          warnings w' =
            if name_needs_fixing generated
            then warnings w ++ ["Generated name is too long or contains spaces: " +:+ generated]
            else warnings w)
     (λ _ w', step_footprint 4 w w' ∧
        name (task_recorder w') = name (task_recorder w) ∧
        warnings w' = warnings w) w.
Proof.
  unfold step4. rewrite wp_bind. unfold wp at 1. simpl.
  rewrite wp_bind. unfold wp at 1. simpl.
  rewrite wp_bind, wp_get_agent. simpl.
  destruct (agent_at (objects w) (agent_4 (self w))) as [a|] eqn:Ha.
  2:{ split; [apply footprint_not_started|done]. }
  rewrite wp_async_with. unfold wp at 1. simpl.
  rewrite wp_bind. unfold wp at 1. simpl.
  rewrite wp_bind.
  eapply wp_mono; [apply process_streamed_spec| |].
  - intros [] w2 [(S & W & C & A & new & Hs & Hall) Hnone]. simpl in *.
    set (generated := final_output (run_agent env a (requirements (task_recorder w)))).
    assert (Forall (λ s, in_step s = 4 ∧ at_point s ≠ Exiting ∧
                         agree_except 0 (task_recorder w) (seen s))
              [{| in_step := 4; at_point := Entering; seen := task_recorder w |}])
      as Fpre.
    { constructor; [|constructor]. simpl.
      split_and!; [done|done|apply agree_except_refl]. }
    unfold stored_name. fold generated.
    destruct (name_needs_fixing generated) eqn:Hfix.
    + rewrite wp_bind. unfold wp. simpl. split.
      * eapply (footprint_after_exit 4 w w2 [_] new);
          [exact S|done|done|exact Hs|exact Fpre|done|].
        unfold agree_except. simpl. auto 10.
      * exists a. fold generated. by rewrite Hfix, W.
    + unfold wp. simpl. split.
      * eapply (footprint_after_exit 4 w w2 [_] new);
          [exact S|done|done|exact Hs|exact Fpre|done|].
        unfold agree_except. simpl. auto 10.
      * exists a. fold generated. by rewrite Hfix, W.
  - intros e w2 [(S & W & C & A & new & Hs & Hall) Hsome]. simpl in *.
    split_and!; [|by destruct A as (_ & _ & _ & [?|?] & _)|done].
    eapply (footprint_after_exit 4 w w2 [_] new);
      [exact S|done|done|exact Hs| |done|apply agree_except_refl].
    constructor; [|constructor]. simpl.
    split_and!; [done|done|apply agree_except_refl].
Qed.

Lemma step3_spec w :
  wp (step3 env)
     (λ _ w', step_footprint 3 w w' ∧ warnings w' = warnings w ∧
        ∃ a, agent_at (objects w) (agent_3 (self w)) = Some a ∧
          instructions (task_recorder w') =
            Some (final_output (run_agent env a (requirements (task_recorder w)))))
     (λ _ w', step_footprint 3 w w' ∧ warnings w' = warnings w ∧
        instructions (task_recorder w') = instructions (task_recorder w)) w.
Proof.
  unfold step3. rewrite wp_bind. unfold wp at 1. simpl.
  rewrite wp_bind. unfold wp at 1. simpl.
  rewrite wp_bind, wp_get_agent. simpl.
  destruct (agent_at (objects w) (agent_3 (self w))) as [a|] eqn:Ha.
  2:{ split; [apply footprint_not_started|done]. }
  rewrite wp_async_with. unfold wp at 1. simpl.
  rewrite wp_bind. unfold wp at 1. simpl.
  rewrite wp_bind.
  assert (Forall (λ s, in_step s = 3 ∧ at_point s ≠ Exiting ∧
                       agree_except 0 (task_recorder w) (seen s))
            [{| in_step := 3; at_point := Entering; seen := task_recorder w |}])
    as Fpre.
  { constructor; [|constructor]. simpl.
    split_and!; [done|done|apply agree_except_refl]. }
  eapply wp_mono; [apply process_streamed_spec| |].
  - intros [] w2 [(S & W & C & A & new & Hs & Hall) Hnone]. simpl in *.
    unfold wp. simpl. split_and!; [|done|by exists a].
    eapply (footprint_after_exit 3 w w2 [_] new);
      [exact S|done|done|exact Hs|exact Fpre|done|].
    unfold agree_except. simpl. auto 10.
  - intros e w2 [(S & W & C & A & new & Hs & Hall) Hsome]. simpl in *.
    split_and!; [|done|by destruct A as (_ & _ & [?|?] & _)].
    eapply (footprint_after_exit 3 w w2 [_] new);
      [exact S|done|done|exact Hs|exact Fpre|done|apply agree_except_refl].
Qed.

Lemma step1_spec w :
  wp (step1 env)
     (λ _ w', step_footprint 1 w w' ∧ warnings w' = warnings w ∧
        ∃ a user_input,
          ask_user env "Please enter your requirements:" = Ok user_input ∧
          agent_at (objects w) (agent_1 (self w)) = Some a ∧
          requirements (task_recorder w') =
            Some (final_output (run_agent env a (Some user_input))))
     (λ _ w', step_footprint 1 w w' ∧ warnings w' = warnings w ∧
        requirements (task_recorder w') = requirements (task_recorder w)) w.
Proof.
  unfold step1. rewrite wp_bind. unfold wp at 1. simpl.
  rewrite wp_bind. unfold wp at 1. simpl.
  destruct (interaction_toolkit (self w)) as [tk|].
  2:{ unfold wp. simpl. split; [apply footprint_not_started|done]. }
  rewrite wp_bind. unfold wp at 1. simpl.
  assert (Forall (λ s, in_step s = 1 ∧ at_point s ≠ Exiting ∧
                       agree_except 0 (task_recorder w) (seen s))
            [{| in_step := 1; at_point := AskingUser; seen := task_recorder w |}])
    as Fask.
  { constructor; [|constructor]. simpl.
    split_and!; [done|done|apply agree_except_refl]. }
  assert (step_footprint 1 w
    {| self := self w; task_recorder := task_recorder w; objects := objects w;
       files := files w; warnings := warnings w; stdout := stdout w;
       scheduled := scheduled w; current_step := 1;
       suspensions := suspensions w ++
         [{| in_step := 1; at_point := AskingUser; seen := task_recorder w |}] |})
    as Fstop.
  { by apply footprint_before_stream. }
  rewrite wp_bind. unfold wp at 1, lift at 1.
  destruct (ask_user env "Please enter your requirements:") as [user_input|e] eqn:Hask;
    [|by split].
  rewrite wp_bind, wp_get_agent. simpl.
  destruct (agent_at (objects w) (agent_1 (self w))) as [a|] eqn:Ha; [|by split].
  rewrite wp_async_with. unfold wp at 1. simpl.
  rewrite wp_bind.
  assert (Forall (λ s, in_step s = 1 ∧ at_point s ≠ Exiting ∧
                       agree_except 0 (task_recorder w) (seen s))
            [{| in_step := 1; at_point := AskingUser; seen := task_recorder w |};
             {| in_step := 1; at_point := Entering; seen := task_recorder w |}])
    as Fpre.
  { repeat (constructor; [simpl; split_and!; [done|done|apply agree_except_refl]|]).
    constructor. }
  eapply wp_mono; [apply process_streamed_spec| |].
  - intros [] w2 [(S & W & C & A & new & Hs & Hall) Hnone]. simpl in *.
    rewrite <-(app_assoc (suspensions w)) in Hs. simpl in Hs.
    unfold wp. simpl. split_and!; [|done|by exists a, user_input].
    eapply (footprint_after_exit 1 w w2 [_; _] new);
      [exact S|done|done|exact Hs|exact Fpre|done|].
    unfold agree_except. simpl. auto 10.
  - intros e w2 [(S & W & C & A & new & Hs & Hall) Hsome]. simpl in *.
    rewrite <-(app_assoc (suspensions w)) in Hs. simpl in Hs.
    split_and!; [|done|by destruct A as ([?|?] & _)].
    eapply (footprint_after_exit 1 w w2 [_; _] new);
      [exact S|done|done|exact Hs|exact Fpre|done|apply agree_except_refl].
Qed.

Lemma list_tools_eq toolkits_map descs idx w :
  ∃ w' pre,
    list_tools toolkits_map descs idx w = (Ok (catalogue toolkits_map descs idx), w') ∧
    same_surroundings w w' ∧ task_recorder w' = task_recorder w ∧
    warnings w' = warnings w ∧ current_step w' = current_step w ∧
    suspensions w' = suspensions w ++ pre ∧
    Forall (λ s, in_step s = current_step w ∧ at_point s ≠ Exiting ∧
                 agree_except 0 (task_recorder w) (seen s)) pre.
Proof.
  revert descs idx w.
  induction toolkits_map as [|[toolkit_name tools] rest IH]; intros descs idx w; simpl.
  - exists w, []. rewrite app_nil_r.
    split_and!; auto using same_surroundings_refl.
  - unfold mbind, M_bind. simpl.
    edestruct IH as (w' & pre & -> & S & R & W & C & U & F).
    exists w', ({| in_step := current_step w; at_point := ListingTools;
                   seen := task_recorder w |} :: pre). simpl in *.
    split_and!; [done|exact S|done|done|done|by rewrite U, <-app_assoc|].
    constructor; [|done]. simpl.
    split_and!; [done|done|apply agree_except_refl].
Qed.

Lemma step2_spec w :
  wp (step2 env)
     (λ _ w', step_footprint 2 w w' ∧ warnings w' = warnings w ∧
        ∃ d, step2_outcome env w = Ok d ∧
             selected_tools (task_recorder w') = Some d)
     (λ e w', step_footprint 2 w w' ∧ warnings w' = warnings w ∧
        step2_outcome env w = Raise e ∧
        selected_tools (task_recorder w') = selected_tools (task_recorder w)) w.
Proof.
  unfold step2, step2_outcome, selection_run, tool_to_toolkit_name.
  rewrite wp_bind. unfold wp at 1. simpl.
  rewrite wp_bind. unfold wp at 1.
  edestruct (list_tools_eq (get_toolkits_map env available_toolkits) [] ∅)
    as (w1 & pre & -> & S1 & R1 & W1 & C1 & U1 & F1).
  simpl in S1, R1, W1, C1, U1, F1.
  destruct (catalogue (get_toolkits_map env available_toolkits) [] ∅)
    as [tools_descs index] eqn:Hcat. simpl.
  rewrite wp_bind. unfold wp at 1. simpl. rewrite R1.
  assert (step_footprint 2 w w1) as Fstop.
  { eapply (step_footprint_intro 2 w w1 w1 pre [] []);
      [exact S1|apply same_surroundings_refl|by rewrite R1; apply agree_except_refl
      |apply agree_except_refl|by rewrite app_nil_r|by rewrite app_nil_r
      |exact F1|done|done]. }
  rewrite wp_bind. unfold wp at 1, lift at 1.
  rewrite format_selection.
  set (query := selection_query _ _).
  rewrite wp_bind. unfold wp at 1. simpl.
  rewrite wp_bind, wp_get_agent.
  unfold same_surroundings in S1. simpl in S1.
  destruct S1 as (Sself & Sobj & Sfiles & Ssched).
  rewrite Sself, Sobj.
  destruct (agent_at (objects w) (agent_2 (self w))) as [a|] eqn:Ha;
    [|split_and!; [done|done|done|by rewrite R1]].
  set (rr := run_agent env a (Some query)).
  rewrite wp_bind, wp_async_with. unfold wp at 1. simpl.
  rewrite wp_bind.
  eapply wp_mono; [apply process_streamed_spec| |].
  - intros [] w2 [(S & W & C & A & new & Hs & Hall) Hnone]. simpl in *.
    rewrite Hnone. rewrite R1 in A, Hall, Hs. rewrite C1 in C, Hall, Hs.
    rewrite U1, <-(app_assoc (suspensions w)) in Hs. rewrite W1 in W.
    assert (same_surroundings w w2) as S2.
    { unfold same_surroundings in *. simpl in S. intuition congruence. }
    assert (Forall (λ s, in_step s = 2 ∧ at_point s ≠ Exiting ∧
                         agree_except 0 (task_recorder w) (seen s))
              (pre ++ [{| in_step := 2; at_point := Entering;
                          seen := task_recorder w |}])) as Fpre.
    { apply Forall_app. split; [done|]. constructor; [|done]. simpl.
      split_and!; [done|done|apply agree_except_refl]. }
    assert (selected_tools (task_recorder w2) = selected_tools (task_recorder w))
      as Hsel by (by destruct A as (_ & [?|?] & _)).
    assert (step_footprint 2 w
      {| self := self w2; task_recorder := task_recorder w2; objects := objects w2;
         files := files w2; warnings := warnings w2; stdout := stdout w2;
         scheduled := scheduled w2; current_step := current_step w2;
         suspensions := suspensions w2 ++
           [{| in_step := current_step w2; at_point := Exiting;
               seen := task_recorder w2 |}] |}) as Fexit.
    { eapply (footprint_after_exit 2 w w2 _ new);
        [exact S2|done|done|exact Hs|exact Fpre|done|apply agree_except_refl]. }
    destruct (json_loads env (final_output rr)) as [v|] eqn:Hjson;
      [|by unfold wp; simpl].
    unfold wp at 1 2. simpl.
    rewrite wp_bind. unfold wp at 1, lift at 1.
    destruct (py_iter v) as [items|e]; [|done].
    rewrite wp_bind. unfold wp at 1, lift at 1.
    destruct (group_tools index items []) as [d|e]; [|done].
    unfold wp. simpl. split_and!; [|done|by exists d].
    destruct Fexit as (Fs & Fa & post & Fp & Fall). simpl in *.
    split_and!; [done| |by exists post].
    unfold agree_except in *. simpl. intuition.
  - intros e w2 [(S & W & C & A & new & Hs & Hall) Hsome]. simpl in *.
    rewrite Hsome. rewrite R1 in A, Hall, Hs. rewrite C1 in C, Hall, Hs.
    rewrite U1, <-(app_assoc (suspensions w)) in Hs. rewrite W1 in W.
    assert (same_surroundings w w2) as S2.
    { unfold same_surroundings in *. simpl in S. intuition congruence. }
    split_and!; [|done|done|by destruct A as (_ & [?|?] & _)].
    eapply (footprint_after_exit 2 w w2 _ new);
      [exact S2|done|done|exact Hs| |done|apply agree_except_refl].
    apply Forall_app. split; [done|]. constructor; [|done]. simpl.
    split_and!; [done|done|apply agree_except_refl].
Qed.

End Steps.


Section StepTwo.
Variable env : Env.


End StepTwo.

(** ** [build] and [format_config] *)

Lemma render_config_eq selected agent_name instr :
  render_config selected agent_name instr
  = Ok (rendered selected (py_str agent_name) instr).
Proof. reflexivity. Qed.

#[local] Arguments render_config : simpl never.

Section BuildAndFormat.
Variable env : Env.

Ltac build_failed :=
  unfold build_footprint; simpl; split_and!; try done;
  first [ by (exists []; rewrite app_nil_r)
        | by (eexists [_]; split; [reflexivity|repeat constructor]) ].

Lemma build_spec w :
  wp (build env)
     (λ _ w', _initialized (self w') = true ∧ build_footprint w w')
     (λ _ w', _initialized (self w') = false ∧ build_footprint w w') w.
Proof.
  unfold build. rewrite wp_bind. unfold wp at 1. simpl.
  destruct (_initialized (self w)) eqn:Hi.
  { unfold wp. simpl. split; [done|].
    unfold build_footprint. split_and!; try done. apply suspended_since_refl. }
  do 3 (rewrite wp_bind; unfold wp at 1; simpl).
  rewrite wp_bind. unfold wp at 1, lift at 1.
  destruct (render_template env "requirements_clarification.j2") as [i1|e];
    [|by build_failed].
  rewrite wp_bind. unfold wp at 1. simpl.
  rewrite wp_bind. unfold wp at 1, lift at 1.
  destruct (interaction_tools env) as [tools|e]; [|by build_failed].
  do 2 (rewrite wp_bind; unfold wp at 1; simpl).
  rewrite wp_bind. unfold wp at 1, lift at 1.
  destruct (render_template env "tools_selection.j2") as [i2|e]; [|by build_failed].
  do 2 (rewrite wp_bind; unfold wp at 1; simpl).
  rewrite wp_bind. unfold wp at 1, lift at 1.
  destruct (render_template env "instructions_generation.j2") as [i3|e];
    [|by build_failed].
  do 2 (rewrite wp_bind; unfold wp at 1; simpl).
  rewrite wp_bind. unfold wp at 1, lift at 1.
  destruct (render_template env "name_generation.j2") as [i4|e]; [|by build_failed].
  do 2 (rewrite wp_bind; unfold wp at 1; simpl).
  unfold wp. simpl. by build_failed.
Qed.

(** Once initialized, [build] returns at once and changes nothing. *)
Lemma build_initialized w :
  _initialized (self w) = true → build env w = (Ok tt, w).
Proof. intros Hi. unfold build, mbind, M_bind. simpl. by rewrite Hi. Qed.

Lemma format_config_recorder w :
  task_recorder (format_config env w).2 = task_recorder w.
Proof.
  unfold format_config, mbind, M_bind. cbn.
  destruct (selected_tools (task_recorder w)) as [d|]; [|done]. cbn.
  destruct (instructions (task_recorder w)) as [instr|]; [|done]. cbn.
  rewrite render_config_eq. unfold lift. cbn.
  by destruct (can_write env _).
Qed.

End BuildAndFormat.

(** ** Facts about the string primitives *)

Lemma length_replace old new s :
  String.length (Py.replace old new s) = String.length s.
Proof. induction s as [|a s IH]; simpl; [done|by rewrite IH]. Qed.

Lemma length_slice_to n s : (String.length (Py.slice_to n s) ≤ n)%nat.
Proof.
  revert s. induction n as [|n IH]; intros [|a s]; simpl; try lia.
  specialize (IH s). lia.
Qed.

Lemma slice_to_short n s : (String.length s ≤ n)%nat → Py.slice_to n s = s.
Proof.
  revert s. induction n as [|n IH]; intros [|a s]; simpl; try done; try lia.
  intros ?. f_equal. apply IH. lia.
Qed.

Lemma contains_replace old new s :
  old ≠ new → Py.contains old (Py.replace old new s) = false.
Proof.
  intros Hne. induction s as [|a s IH]; simpl; [done|].
  destruct (Ascii.eqb_spec a old) as [->|Ha].
  - destruct (Ascii.eqb_spec new old); [congruence|done].
  - destruct (Ascii.eqb_spec a old); [congruence|done].
Qed.

Lemma replace_absent old new s :
  Py.contains old s = false → Py.replace old new s = s.
Proof.
  induction s as [|a s IH]; simpl; [done|].
  destruct (Ascii.eqb a old); [done|]. intros ?. by rewrite IH.
Qed.


Lemma name_needs_fixing_false generated :
  name_needs_fixing generated = false ↔
  (String.length generated ≤ 50)%nat ∧ Py.contains Py.SP generated = false.
Proof.
  unfold name_needs_fixing. rewrite orb_false_iff, Nat.ltb_ge. done.
Qed.

Lemma stored_name_ok generated :
  (String.length (stored_name generated) ≤ 50)%nat ∧
  Py.contains Py.SP (stored_name generated) = false.
Proof.
  unfold stored_name. destruct (name_needs_fixing generated) eqn:Hfix.
  - unfold fixed_name. split.
    + rewrite length_replace. apply length_slice_to.
    + by apply contains_replace.
  - by apply name_needs_fixing_false in Hfix.
Qed.

(** * The claims *)

Section Claims.
Variable env : Env.

(** C7. [build] is idempotent: after one successful call, a second call
    succeeds without constructing anything; the object store and every
    agent attribute are the same as after the first call, so each attribute
    refers to the identical object. *)
Theorem build_idempotent w w1 r2 w2 :
  build env w = (Ok tt, w1) →
  build env w1 = (r2, w2) →
  r2 = Ok tt ∧ objects w2 = objects w1 ∧
  interaction_toolkit (self w2) = interaction_toolkit (self w1) ∧
  agent_1 (self w2) = agent_1 (self w1) ∧ agent_2 (self w2) = agent_2 (self w1) ∧
  agent_3 (self w2) = agent_3 (self w1) ∧ agent_4 (self w2) = agent_4 (self w1) ∧
  w2 = w1.
Proof.
  intros H1 H2.
  pose proof (wp_elim _ _ _ _ _ _ (build_spec env w) H1) as [Hi _].
  rewrite (build_initialized env w1 Hi) in H2.
  injection H2 as <- <-. by split_and!.
Qed.


(** C9. The [requirements] field belongs to step 1: when step 1 succeeds it
    is set (to the final output of the clarification agent), and steps 2, 3
    and 4 and [format_config] leave it as it is, whether they succeed or
    raise. *)
Theorem requirements_set_by_step1_only w :
  match step1 env w with
  | (Ok _, w') => is_Some (requirements (task_recorder w'))
  | (Raise _, w') => requirements (task_recorder w') = requirements (task_recorder w)
  end ∧
  requirements (task_recorder (step2 env w).2) = requirements (task_recorder w) ∧
  requirements (task_recorder (step3 env w).2) = requirements (task_recorder w) ∧
  requirements (task_recorder (step4 env w).2) = requirements (task_recorder w) ∧
  requirements (task_recorder (format_config env w).2) = requirements (task_recorder w).
Proof.
  split_and!.
  - pose proof (step1_spec env w) as H. unfold wp in H.
    destruct (step1 env w) as [[[]|e] w'].
    + destruct H as (_ & _ & a & u & _ & _ & ->). by eexists.
    + by destruct H as (_ & _ & ?).
  - pose proof (step2_spec env w) as H. unfold wp in H.
    destruct (step2 env w) as [[[]|e] w']; simpl;
      by destruct H as ((_ & ([?|?] & _) & _) & _).
  - pose proof (step3_spec env w) as H. unfold wp in H.
    destruct (step3 env w) as [[[]|e] w']; simpl;
      by destruct H as ((_ & ([?|?] & _) & _) & _).
  - pose proof (step4_spec env w) as H. unfold wp in H.
    destruct (step4 env w) as [[[]|e] w']; simpl;
      by destruct H as ((_ & ([?|?] & _) & _) & _).
  - by rewrite format_config_recorder.
Qed.

Lemma map_Str_inj (l1 l2 : list string) :
  map Json.Str l1 = map Json.Str l2 → l1 = l2.
Proof.
  revert l2. induction l1 as [|x l1 IH]; intros [|y l2]; simpl; try done.
  intros [= -> ?]. f_equal. by apply IH.
Qed.

(** What a successful step 2 has computed. *)
Lemma step2_Ok w w' :
  step2 env w = (Ok tt, w') →
  ∃ rr v names d,
    selection_run env w = Ok rr ∧ stream_failure rr = None ∧
    json_loads env (final_output rr) = Some v ∧
    py_iter v = Ok (map Json.Str names) ∧
    selected_tools (task_recorder w') = Some d ∧
    NoDup (Dict.keys d) ∧
    (∀ g, g ∈ Dict.keys d → ∃ t, t ∈ names ∧ tool_to_toolkit_name env !! t = Some g) ∧
    ∀ g, Dict.get_list g d = filter (owned_by (tool_to_toolkit_name env) g) names.
Proof.
  intros H.
  pose proof (wp_elim _ _ _ _ _ _ (step2_spec env w) H) as (_ & _ & d & Hout & Hsel).
  unfold step2_outcome in Hout.
  destruct (selection_run env w) as [rr|] eqn:Hrun; [|done].
  destruct (stream_failure rr) eqn:Hfail; [done|].
  destruct (json_loads env (final_output rr)) as [v|] eqn:Hjson; [|done].
  destruct (py_iter v) as [items|] eqn:Hiter; [|done].
  apply group_tools_Ok in Hout as (names & -> & _ & Hget & Hnd & Hkeys).
  exists rr, v, names, d. split_and!; try done.
  - apply Hnd. constructor.
  - intros g Hg. destruct (Hkeys g Hg) as [Hin|?]; [|done].
    by apply elem_of_nil in Hin.
Qed.

(** C1. After a successful step 2, every tool name filed under a group of
    [selected_tools] is mapped to that group by the reverse index built from
    the available toolkits. *)
Theorem step2_files_tools_under_owner w w' :
  step2 env w = (Ok tt, w') →
  ∃ d, selected_tools (task_recorder w') = Some d ∧
    ∀ g l t, Dict.lookup g d = Some l → t ∈ l →
      tool_to_toolkit_name env !! t = Some g.
Proof.
  intros H. destruct (step2_Ok w w' H) as (rr & v & names & d & _ & _ & _ & _ & Hd & _ & _ & Hget).
  exists d. split; [done|]. intros g l t Hl Ht.
  specialize (Hget g). unfold Dict.get_list in Hget. rewrite Hl in Hget.
  subst l. by apply list_elem_of_filter in Ht as [? _].
Qed.

(** How a successful step 2 groups the names it iterates over. *)
Lemma step2_grouping w w' rr v names :
  selection_run env w = Ok rr →
  json_loads env (final_output rr) = Some v →
  py_iter v = Ok (map Json.Str names) →
  step2 env w = (Ok tt, w') →
  ∃ d, selected_tools (task_recorder w') = Some d ∧
    ∀ g, Dict.get_list g d = filter (owned_by (tool_to_toolkit_name env) g) names.
Proof.
  intros Hrun Hjson Hnames H.
  destruct (step2_Ok w w' H)
    as (rr' & v' & names' & d & Hrun' & _ & Hjson' & Hiter & Hd & _ & _ & Hget).
  rewrite Hrun in Hrun'. injection Hrun' as <-.
  rewrite Hjson in Hjson'. injection Hjson' as <-.
  rewrite Hnames in Hiter. injection Hiter as Hiter.
  apply map_Str_inj in Hiter as ->. by exists d.
Qed.

(** C5. Grouping preserves the order of discovery: when the decoded output
    of the tool-selection agent is the list [names] and step 2 succeeds,
    [selected_tools[g]] is, for every group [g], the sublist of [names]
    owned by [g], in the order of [names]. *)
Theorem step2_preserves_order w w' rr names :
  selection_run env w = Ok rr →
  json_loads env (final_output rr) = Some (Json.Arr (map Json.Str names)) →
  step2 env w = (Ok tt, w') →
  ∃ d, selected_tools (task_recorder w') = Some d ∧
    ∀ g, Dict.get_list g d = filter (owned_by (tool_to_toolkit_name env) g) names.
Proof.
  intros Hrun Hjson H.
  by apply (step2_grouping w w' rr (Json.Arr (map Json.Str names)) names).
Qed.

(** C10. Step 2 does not deduplicate: when the decoded output of the
    tool-selection agent is the list [names] and step 2 succeeds, a tool
    name occurs in [selected_tools], under its owning group, as many times
    as it occurs in [names]. *)
Theorem step2_keeps_multiplicity w w' rr names t g :
  selection_run env w = Ok rr →
  json_loads env (final_output rr) = Some (Json.Arr (map Json.Str names)) →
  step2 env w = (Ok tt, w') →
  tool_to_toolkit_name env !! t = Some g →
  ∃ d, selected_tools (task_recorder w') = Some d ∧
    length (filter (λ x, x = t) (Dict.get_list g d))
    = length (filter (λ x, x = t) names).
Proof.
  intros Hrun Hjson H Hown.
  destruct (step2_grouping w w' rr (Json.Arr (map Json.Str names)) names
              Hrun Hjson eq_refl H) as (d & Hd & Hget).
  exists d. split; [done|]. rewrite Hget. f_equal.
  rewrite list_filter_filter. apply list_filter_iff.
  intros x. split; [by intros [? _]|]. by intros ->.
Qed.

(** C6. When the decoded output of the tool-selection agent is a list of
    names one of which is absent from the reverse index, step 2 raises the
    [KeyError] of the first such name; nothing is skipped or filed under a
    default group, and [selected_tools] is left as it was. *)
Theorem step2_unknown_tool_raises w rr names t :
  selection_run env w = Ok rr →
  stream_failure rr = None →
  json_loads env (final_output rr) = Some (Json.Arr (map Json.Str names)) →
  t ∈ names →
  tool_to_toolkit_name env !! t = None →
  ∃ t' w',
    step2 env w = (Raise (KeyError (Json.Str t')), w') ∧
    t' ∈ names ∧ tool_to_toolkit_name env !! t' = None ∧
    selected_tools (task_recorder w') = selected_tools (task_recorder w).
Proof.
  intros Hrun Hfail Hjson Ht Hnone.
  destruct (group_tools_Raise (tool_to_toolkit_name env) names [] t Ht Hnone)
    as (t' & Hraise & Ht' & Hnone').
  pose proof (step2_spec env w) as H. unfold wp in H.
  destruct (step2 env w) as [[[]|e] w'].
  - destruct H as (_ & _ & d & Hout & _).
    unfold step2_outcome in Hout. rewrite Hrun, Hfail, Hjson in Hout. simpl in Hout.
    congruence.
  - destruct H as (_ & _ & Hout & Hsel).
    unfold step2_outcome in Hout. rewrite Hrun, Hfail, Hjson in Hout. simpl in Hout.
    exists t', w'. split_and!; [|done..]. congruence.
Qed.

End Claims.

(** ** The drivers *)

Section Drivers.
Variable env : Env.

Lemma agree_except_output k r r' j :
  agree_except k r r' → j ≠ k → output_set j r' = output_set j r.
Proof.
  intros (H1 & H2 & H3 & H4 & _) Hj.
  destruct j as [|[|[|[|[|j]]]]]; simpl; try done.
  - destruct H1 as [-> | ->]; done.
  - destruct H2 as [-> | ->]; done.
  - destruct H3 as [-> | ->]; done.
  - destruct H4 as [-> | ->]; done.
Qed.

Lemma agree_except_flag k r r' :
  agree_except k r r' → _is_complete r' = _is_complete r.
Proof. by intros (_ & _ & _ & _ & ? & _). Qed.






(** The path [format_config] writes to. *)
Lemma format_config_cases w :
  let r := task_recorder w in
  let ofn := joinpath env (output_dir (self w)) (py_str (name r) +:+ ".yaml") in
  match selected_tools r, instructions r with
  | None, _ => format_config env w = (Raise (AttributeError "items"), w)
  | Some _, None =>
      format_config env w
      = (Raise (TypeError "'NoneType' object is not iterable"), w)
  | Some d, Some instr =>
      if can_write env ofn then
        ∃ w', format_config env w = (Ok ofn, w') ∧
          files w' = <[ofn := rendered d (py_str (name r)) instr]> (files w) ∧
          task_recorder w' = r ∧ self w' = self w ∧ stdout w' = stdout w ∧
          warnings w' = warnings w
      else format_config env w = (Raise (OSError ofn), w)
  end.
Proof.
  unfold format_config, mbind, M_bind. cbn.
  destruct (selected_tools (task_recorder w)) as [d|]; [|done]. cbn.
  destruct (instructions (task_recorder w)) as [instr|]; [|done]. cbn.
  rewrite render_config_eq. unfold lift. cbn.
  destruct (can_write env _); [|done]. cbn. by eexists.
Qed.

Lemma output_set_after k r r' j :
  agree_except k r r' → j ≠ k → output_set j r = true → output_set j r' = true.
Proof. intros Ha Hj Hs. by rewrite (agree_except_output _ _ _ _ Ha Hj). Qed.

(** The four steps in a row, followed by [k]. *)
Lemma wp_four_steps {A} (k : M A) (Q : A → World → Prop) (E : Exn → World → Prop) w :
  (∀ w4, same_surroundings w w4 →
         (∀ j : nat, (1 ≤ j ≤ 4)%nat → output_set j (task_recorder w4) = true) →
         _is_complete (task_recorder w4) = _is_complete (task_recorder w) →
         wp k Q E w4) →
  (∀ e w', same_surroundings w w' →
           _is_complete (task_recorder w') = _is_complete (task_recorder w) →
           E e w') →
  wp (step1 env ;; step2 env ;; step3 env ;; step4 env ;; k) Q E w.
Proof.
  intros HQ HE.
  rewrite wp_bind. eapply wp_mono; [apply step1_spec| |]; simpl;
    [|intros e w' ((S & G & _) & _); apply HE; [done|by apply agree_except_flag in G]].
  intros _ w1 ((S1 & A1 & _) & _ & a1 & u & _ & _ & R1).
  rewrite wp_bind. eapply wp_mono; [apply step2_spec| |]; simpl.
  2:{ intros e w' ((S & G & _) & _). apply HE.
      - by eapply same_surroundings_trans.
      - apply agree_except_flag in G, A1. congruence. }
  intros _ w2 ((S2 & A2 & _) & _ & d & _ & R2).
  rewrite wp_bind. eapply wp_mono; [apply step3_spec| |]; simpl.
  2:{ intros e w' ((S & G & _) & _). apply HE.
      - eapply same_surroundings_trans; [|done]. by eapply same_surroundings_trans.
      - apply agree_except_flag in G, A1, A2. congruence. }
  intros _ w3 ((S3 & A3 & _) & _ & a3 & _ & R3).
  rewrite wp_bind. eapply wp_mono; [apply step4_spec| |]; simpl.
  2:{ intros e w' ((S & G & _) & _). apply HE.
      - eapply same_surroundings_trans; [|done].
        eapply same_surroundings_trans; [|done]. by eapply same_surroundings_trans.
      - apply agree_except_flag in G, A1, A2, A3. congruence. }
  intros _ w4 ((S4 & A4 & _) & a4 & _ & R4 & _).
  apply HQ.
  - eapply same_surroundings_trans; [|done].
    eapply same_surroundings_trans; [|done]. by eapply same_surroundings_trans.
  - assert (output_set 1 (task_recorder w1) = true) as O1
      by (simpl; rewrite R1; by apply bool_decide_eq_true).
    assert (output_set 2 (task_recorder w2) = true) as O2
      by (simpl; rewrite R2; by apply bool_decide_eq_true).
    assert (output_set 3 (task_recorder w3) = true) as O3
      by (simpl; rewrite R3; by apply bool_decide_eq_true).
    assert (output_set 4 (task_recorder w4) = true) as O4
      by (simpl; rewrite R4; by apply bool_decide_eq_true).
    intros j Hj.
    assert (j = 1 ∨ j = 2 ∨ j = 3 ∨ j = 4) as [-> | [-> | [-> | ->]]] by lia.
    + eapply output_set_after; [exact A4|done|].
      eapply output_set_after; [exact A3|done|].
      eapply output_set_after; [exact A2|done|done].
    + eapply output_set_after; [exact A4|done|].
      eapply output_set_after; [exact A3|done|done].
    + eapply output_set_after; [exact A4|done|done].
    + done.
  - apply agree_except_flag in A1, A2, A3, A4. congruence.
Qed.


(** What a [_start_streaming] that returns has done: the four outputs are
    set, and the path it returns is the path of the file it has written,
    which holds the document rendered from the outputs. *)
Lemma start_streaming_success w :
  wp (_start_streaming env)
     (λ ofn w',
        (∀ j : nat, (1 ≤ j ≤ 4)%nat → output_set j (task_recorder w') = true) ∧
        ∃ d instr,
          selected_tools (task_recorder w') = Some d ∧
          instructions (task_recorder w') = Some instr ∧
          ofn = joinpath env (output_dir (self w'))
                  (py_str (name (task_recorder w')) +:+ ".yaml") ∧
          files w' = <[ofn := rendered d (py_str (name (task_recorder w'))) instr]>
                       (files w))
     (λ _ _, True) w.
Proof.
  unfold _start_streaming.
  rewrite wp_bind. eapply wp_mono; [apply build_spec| |done]; simpl.
  intros _ wa (_ & Hfa & _).
  apply wp_four_steps; [|done].
  intros w4 (_ & _ & Hf4 & _) Hout _.
  rewrite wp_bind. unfold wp at 1.
  pose proof (format_config_cases w4) as Hc. simpl in Hc.
  destruct (selected_tools (task_recorder w4)) as [d|] eqn:Hd; [|by rewrite Hc].
  destruct (instructions (task_recorder w4)) as [instr|] eqn:Hi; [|by rewrite Hc].
  destruct (can_write env _); [|by rewrite Hc].
  destruct Hc as (w5 & -> & Hf5 & Hr5 & Hs5 & _).
  unfold wp, mbind, M_bind. simpl. rewrite Hr5, Hs5.
  split; [exact Hout|].
  exists d, instr. split_and!; [done|done|done|]. by rewrite Hf5, Hf4, Hfa.
Qed.

End Drivers.

Section DriverClaims.
Variable env : Env.


Lemma run_unfold w :
  run env w =
  match run_until_step2 env w with
  | (Ok _, w1) =>
      (step2 env ;; step3 env ;; step4 env ;;
       ofn ← format_config env; print ("Config saved to " +:+ ofn)) w1
  | (Raise e, w1) => (Raise e, w1)
  end.
Proof.
  unfold run, run_until_step2, mbind, M_bind.
  destruct (build env w) as [[[]|e] wa]; [|done].
  destruct (set_recorder _ wa) as [[[]|e] wb]; [|done].
  by destruct (step1 env wb) as [[[]|e] w1].
Qed.

Lemma run_until_step2_spec w :
  wp (run_until_step2 env)
     (λ _ w1, files w1 = files w ∧ selected_tools (task_recorder w1) = None)
     (λ _ _, True) w.
Proof.
  unfold run_until_step2.
  rewrite wp_bind. eapply wp_mono; [apply build_spec| |done]; simpl.
  intros _ wa [_ (Hf & _)].
  rewrite wp_bind. unfold wp at 1. simpl.
  eapply wp_mono; [apply step1_spec| |done]; simpl.
  intros _ w1 (((_ & _ & Hfiles & _) & (_ & Hsel & _) & _) & _). simpl in *.
  split; [congruence|]. by destruct Hsel as [? | ->].
Qed.

(** C4, as amended. When the run has reached step 2 and the tool-selection
    agent has answered with a text that is not a JSON document ([json.loads]
    raises), [run] raises the [JSONDecodeError] of that text: no selection
    is stored in its place and no file is written, since [format_config] is
    never reached. *)
Theorem run_fails_on_malformed_selection w w1 rr :
  run_until_step2 env w = (Ok tt, w1) →
  selection_run env w1 = Ok rr →
  stream_failure rr = None →
  json_loads env (final_output rr) = None →
  ∃ w', run env w = (Raise (JSONDecodeError (final_output rr)), w') ∧
        files w' = files w ∧
        selected_tools (task_recorder w') = None.
Proof.
  intros Hpre Hrun Hfail Hjson.
  pose proof (wp_elim _ _ _ _ _ _ (run_until_step2_spec w) Hpre) as [Hfiles Hsel].
  rewrite run_unfold, Hpre. unfold mbind at 1, M_bind at 1.
  pose proof (step2_spec env w1) as H. unfold wp in H.
  destruct (step2 env w1) as [[[]|e] w2].
  - destruct H as (_ & _ & d & Hout & _).
    unfold step2_outcome in Hout. by rewrite Hrun, Hfail, Hjson in Hout.
  - destruct H as (((_ & _ & Hf2 & _) & _) & _ & Hout & Hsel2).
    unfold step2_outcome in Hout. rewrite Hrun, Hfail, Hjson in Hout.
    injection Hout as <-. exists w2. split_and!; [done|congruence|congruence].
Qed.

End DriverClaims.

(** ** Lines of a text *)

Lemma append_nil_l s : EmptyString +:+ s = s.
Proof. reflexivity. Qed.

Lemma append_cons a s t : String a s +:+ t = String a (s +:+ t).
Proof. reflexivity. Qed.


Section Lines.
Variable c : ascii.

Lemma split_cons s : ∃ l ls, Py.split c s = l :: ls.
Proof.
  induction s as [|a s (l & ls & IH)]; simpl; [by eauto|].
  destruct (Ascii.eqb a c); [by eauto|]. rewrite IH. by eauto.
Qed.

Lemma split_app_sep a b :
  Py.split c (a +:+ String c b) = Py.split c a ++ Py.split c b.
Proof.
  induction a as [|x a IH]; rewrite ?append_nil_l, ?append_cons; simpl.
  - by rewrite Ascii.eqb_refl.
  - destruct (Ascii.eqb x c); [by rewrite IH|].
    rewrite IH. by destruct (split_cons a) as (l & ls & ->).
Qed.


Lemma split_nosep s : Py.contains c s = false → Py.split c s = [s].
Proof.
  induction s as [|x s IH]; simpl; [done|].
  destruct (Ascii.eqb x c); [done|]. intros Hs. by rewrite (IH Hs).
Qed.

Lemma split_pieces_nosep s : Forall (λ l, Py.contains c l = false) (Py.split c s).
Proof.
  induction s as [|x s IH]; simpl; [by repeat constructor|].
  destruct (Ascii.eqb x c) eqn:Hx; [by constructor|].
  destruct (split_cons s) as (l & ls & Hs). rewrite Hs in IH |- *.
  inversion_clear IH as [|?? Hl Hls]. constructor; [|done]. simpl. by rewrite Hx.
Qed.

Lemma split_join ls :
  ls ≠ [] → Forall (λ l, Py.contains c l = false) ls →
  Py.split c (Py.join (String c EmptyString) ls) = ls.
Proof.
  unfold Py.join.
  induction ls as [|l ls IH]; [done|]. intros _ Hall.
  inversion_clear Hall as [|?? Hl Hls].
  destruct ls as [|l' ls].
  - by apply split_nosep.
  - change (String.concat (String c EmptyString) (l :: l' :: ls))
      with (l +:+ String c EmptyString +:+ String.concat (String c EmptyString) (l' :: ls)).
    rewrite append_cons, append_nil_l, split_app_sep, (split_nosep l Hl). simpl.
    f_equal. by apply IH.
Qed.

Lemma contains_app a b :
  Py.contains c (a +:+ b) = Py.contains c a || Py.contains c b.
Proof.
  induction a as [|x a IH]; rewrite ?append_nil_l, ?append_cons; simpl; [done|].
  by destruct (Ascii.eqb x c).
Qed.


End Lines.

(** ** The rendered document *)

Lemma contains_times_SP n : Py.contains Py.LF (Py.times Py.SP n) = false.
Proof. induction n as [|n IH]; [done|]. simpl. by rewrite IH. Qed.








Lemma lines_indented_list k ls :
  Forall (λ l, Py.contains Py.LF l = false) ls →
  Py.lines (add_indented_lines (OfList ls) k) = indented_block k ls.
Proof.
  intros Hall. unfold Py.lines, add_indented_lines, Py.NL.
  destruct ls as [|l ls]; [done|].
  rewrite split_join; [done|done|].
  apply Forall_fmap. eapply Forall_impl; [exact Hall|].
  intros x Hx. simpl. by rewrite contains_app, contains_times_SP, Hx.
Qed.

Lemma lines_indented_str k s :
  Py.lines (add_indented_lines (OfStr s) k)
  = map (λ l, Py.times Py.SP k +:+ l) (Py.lines s).
Proof.
  unfold Py.lines, add_indented_lines, Py.NL.
  rewrite split_join; [done| |].
  - by destruct (split_cons Py.LF s) as (l & ls & ->).
  - apply Forall_fmap. eapply Forall_impl; [apply split_pieces_nosep|].
    intros x Hx. simpl. by rewrite contains_app, contains_times_SP, Hx.
Qed.





Section Filters.
Variable f : string → bool.



End Filters.








Section FormatClaim.
Variable env : Env.


End FormatClaim.

(** ** What the steps leave in the recorder *)

Lemma index_tools_lookup g tools idx t g' :
  index_tools g tools idx !! t = Some g' → g' = g ∨ idx !! t = Some g'.
Proof.
  unfold index_tools. revert idx.
  induction tools as [|tool tools IH]; intros idx; simpl; [by right|].
  intros H. destruct (IH _ H) as [?|Hl]; [by left|].
  rewrite lookup_insert in Hl. case_decide; [|by right].
  left. congruence.
Qed.

Lemma catalogue_lookup toolkits_map descs idx t g :
  (catalogue toolkits_map descs idx).2 !! t = Some g →
  g ∈ Dict.keys toolkits_map ∨ idx !! t = Some g.
Proof.
  revert descs idx.
  induction toolkits_map as [|[k tools] rest IH]; intros descs idx; simpl; [by right|].
  intros H. destruct (IH _ _ H) as [?|Hl].
  - left. by apply elem_of_cons; right.
  - destruct (index_tools_lookup _ _ _ _ _ Hl) as [->|?]; [|by right].
    left. apply elem_of_cons. by left.
Qed.

Section Populated.
Variable env : Env.

(** The four steps leave a recorder as [format_config] is specified for,
    provided the toolkits loaded are among those asked for. *)
Lemma steps_populate w w1 w2 w3 w4 :
  Dict.keys (get_toolkits_map env available_toolkits) ⊆ available_toolkits →
  step1 env w = (Ok tt, w1) → step2 env w1 = (Ok tt, w2) →
  step3 env w2 = (Ok tt, w3) → step4 env w3 = (Ok tt, w4) →
  ∃ d instr n,
    selected_tools (task_recorder w4) = Some d ∧
    instructions (task_recorder w4) = Some instr ∧
    name (task_recorder w4) = Some n ∧
    NoDup (Dict.keys d) ∧
    Forall (λ g, g ∈ available_toolkits) (Dict.keys d) ∧
    Py.contains Py.SP n = false.
Proof.
  intros Hsub _ H2 H3 H4.
  destruct (step2_Ok env w1 w2 H2)
    as (rr & v & names & d & _ & _ & _ & _ & Hd & Hnd & Hkeys & _).
  pose proof (wp_elim _ _ _ _ _ _ (step3_spec env w2) H3)
    as ((_ & (_ & A3 & _) & _) & _ & a3 & _ & Hinstr).
  pose proof (wp_elim _ _ _ _ _ _ (step4_spec env w3) H4)
    as ((_ & (_ & A4 & I4 & _) & _) & a4 & _ & Hname & _).
  simpl in Hname.
  destruct A3 as [?|A3]; [done|]. destruct A4 as [?|A4]; [done|].
  destruct I4 as [?|I4]; [done|].
  eexists d, _, _. split_and!.
  - congruence.
  - by rewrite I4.
  - exact Hname.
  - done.
  - apply Forall_forall. intros g Hg.
    destruct (Hkeys g Hg) as (t & _ & Ht).
    destruct (catalogue_lookup _ _ _ _ _ Ht) as [?|Hempty]; [by apply Hsub|].
    by rewrite lookup_empty in Hempty.
  - apply stored_name_ok.
Qed.

End Populated.

(** ** The scenarios of the specification *)

(** Round trip: the two selected tools end under their groups, and the
    document has the two include lines. *)
Example round_trip_selected_tools :
  selected_tools (task_recorder (after (run round_trip_env) sample_world))
  = Some [("search", ["web_search"]); ("document", ["pdf_reader"])].
Proof. vm_compute. reflexivity. Qed.

Example round_trip_include_lines :
  (λ doc, filter (λ l, is_include_line l = true) (Py.lines doc))
    <$> files (after (run round_trip_env) sample_world)
          !! "configs/agents/generated/web_pdf_agent.yaml"
  = Some ["  - /tools/search@toolkits.search";
          "  - /tools/document@toolkits.document"].
Proof. vm_compute. reflexivity. Qed.

(** Name sanitization: the long name is cut and its spaces replaced, with a
    warning; a short name passes through. *)
Example long_name_sanitized :
  name (task_recorder (after (run long_name_env) sample_world))
  = Some "a_very_long_name_with_spaces_that_exceeds_fifty_ch" ∧
  length (warnings (after (run long_name_env) sample_world)) = 1.
Proof. vm_compute. done. Qed.

Example short_name_unchanged :
  stored_name "shortname" = "shortname" ∧ name_needs_fixing "shortname" = false.
Proof. vm_compute. done. Qed.

(** Malformed output: nothing is written. *)
Example prose_selection_writes_nothing :
  (run prose_env sample_world).1 = Raise (JSONDecodeError prose_selection) ∧
  files (after (run prose_env) sample_world) = ∅.
Proof. vm_compute. done. Qed.

(** ** The claims at the sample environments *)

Lemma build_idempotent_witness :
  (build round_trip_env (after (build round_trip_env) sample_world)).1 = Ok tt ∧
  objects (after (build round_trip_env) (after (build round_trip_env) sample_world))
    = objects (after (build round_trip_env) sample_world) ∧
  agent_2 (self (after (build round_trip_env) (after (build round_trip_env) sample_world)))
    = agent_2 (self (after (build round_trip_env) sample_world)).
Proof.
  destruct (build_idempotent round_trip_env sample_world
              (after (build round_trip_env) sample_world)
              (build round_trip_env (after (build round_trip_env) sample_world)).1
              (after (build round_trip_env) (after (build round_trip_env) sample_world)))
    as (H1 & H2 & _ & _ & H3 & _).
  - vm_compute. reflexivity.
  - vm_compute. reflexivity.
  - exact (conj H1 (conj H2 H3)).
Defined.


Lemma step2_files_tools_under_owner_witness :
  ∃ d, selected_tools (task_recorder
         (after (step2 round_trip_env)
            (after (run_until_step2 round_trip_env) sample_world))) = Some d ∧
    ∀ g l t, Dict.lookup g d = Some l → t ∈ l →
      tool_to_toolkit_name round_trip_env !! t = Some g.
Proof.
  apply (step2_files_tools_under_owner round_trip_env
           (after (run_until_step2 round_trip_env) sample_world)).
  vm_compute. reflexivity.
Defined.

Lemma step2_preserves_order_witness :
  ∃ d, selected_tools (task_recorder
         (after (step2 repeated_env)
            (after (run_until_step2 repeated_env) sample_world))) = Some d ∧
    ∀ g, Dict.get_list g d
         = filter (owned_by (tool_to_toolkit_name repeated_env) g) repeated_names.
Proof.
  apply (step2_preserves_order repeated_env
           (after (run_until_step2 repeated_env) sample_world) _
           (sample_selection_run repeated_selection)).
  - vm_compute. reflexivity.
  - vm_compute. reflexivity.
  - vm_compute. reflexivity.
Defined.

Lemma step2_keeps_multiplicity_witness :
  ∃ d, selected_tools (task_recorder
         (after (step2 repeated_env)
            (after (run_until_step2 repeated_env) sample_world))) = Some d ∧
    length (filter (λ x, x = "web_search") (Dict.get_list "search" d))
    = length (filter (λ x, x = "web_search") repeated_names).
Proof.
  apply (step2_keeps_multiplicity repeated_env
           (after (run_until_step2 repeated_env) sample_world) _
           (sample_selection_run repeated_selection)).
  - vm_compute. reflexivity.
  - vm_compute. reflexivity.
  - vm_compute. reflexivity.
  - vm_compute. reflexivity.
Defined.

Lemma step2_unknown_tool_raises_witness :
  ∃ t' w',
    step2 unknown_env (after (run_until_step2 unknown_env) sample_world)
      = (Raise (KeyError (Json.Str t')), w') ∧
    t' ∈ unknown_names ∧
    tool_to_toolkit_name unknown_env !! t' = None ∧
    selected_tools (task_recorder w')
      = selected_tools (task_recorder (after (run_until_step2 unknown_env) sample_world)).
Proof.
  apply (step2_unknown_tool_raises unknown_env
           (after (run_until_step2 unknown_env) sample_world)
           (sample_selection_run unknown_selection) unknown_names "no_such_tool").
  - vm_compute. reflexivity.
  - reflexivity.
  - vm_compute. reflexivity.
  - unfold unknown_names. apply (bool_decide_unpack _). vm_compute. exact I.
  - vm_compute. reflexivity.
Defined.

Lemma run_fails_on_malformed_selection_witness :
  ∃ w', run prose_env sample_world
          = (Raise (JSONDecodeError prose_selection), w') ∧
        files w' = files sample_world ∧
        selected_tools (task_recorder w') = None.
Proof.
  apply (run_fails_on_malformed_selection prose_env sample_world
           (after (run_until_step2 prose_env) sample_world)
           (sample_selection_run prose_selection)).
  - vm_compute. reflexivity.
  - vm_compute. reflexivity.
  - reflexivity.
  - vm_compute. reflexivity.
Defined.

(** The run accepts an answer that is a JSON document but not a list of
    tool names: the object is iterated over its keys, the run succeeds and
    the document is written. *)
Lemma object_selection_is_accepted :
  selection_run object_env (after (run_until_step2 object_env) sample_world)
    = Ok (sample_selection_run object_selection) ∧
  (∀ names, json_loads object_env object_selection
            ≠ Some (Json.Arr (map Json.Str names))) ∧
  (run object_env sample_world).1 = Ok tt ∧
  selected_tools (task_recorder (after (run object_env) sample_world))
    = Some [("search", ["web_search"])] ∧
  is_Some (files (after (run object_env) sample_world)
             !! "configs/agents/generated/web_pdf_agent.yaml").
Proof.
  split_and!.
  - vm_compute. reflexivity.
  - intros names. vm_compute. discriminate.
  - vm_compute. reflexivity.
  - vm_compute. reflexivity.
  - apply (bool_decide_unpack _). vm_compute. exact I.
Qed.



(** * Further properties of the code *)

(** ** [add_indented_lines] *)

Lemma join_split (c : ascii) s :
  Py.join (String c EmptyString) (Py.split c s) = s.
Proof.
  unfold Py.join. induction s as [|a s IH]; [done|]. simpl.
  destruct (split_cons c s) as (l & ls & Hs). rewrite Hs in IH |- *.
  destruct (Ascii.eqb_spec a c) as [->|_].
  - change (String.concat (String c EmptyString) (EmptyString :: l :: ls))
      with (EmptyString +:+ String c EmptyString
              +:+ String.concat (String c EmptyString) (l :: ls)).
    by rewrite IH.
  - rewrite <-IH. by destruct ls.
Qed.

(** X1. For a [str], [add_indented_lines] keeps the number of lines: the
    lines of its result are the lines of the text, each behind [indent]
    spaces. *)
Theorem add_indented_lines_str_lines s indent :
  Py.lines (add_indented_lines (OfStr s) indent)
  = map (λ l, Py.times Py.SP indent +:+ l) (Py.lines s) ∧
  length (Py.lines (add_indented_lines (OfStr s) indent)) = length (Py.lines s).
Proof.
  rewrite lines_indented_str. split; [done|]. apply length_map.
Qed.

(** X2. With an indent of 0, [add_indented_lines] gives a [str] back
    unchanged. *)
Theorem add_indented_lines_zero s : add_indented_lines (OfStr s) 0 = s.
Proof.
  unfold add_indented_lines. simpl.
  rewrite (map_ext _ id) by done. rewrite map_id. apply join_split.
Qed.

(** X3. For a list, [add_indented_lines] indents the elements as they are,
    without splitting them: when no element holds a newline, the lines of
    the result are the elements behind [indent] spaces, and the empty list
    gives a single empty line. *)
Theorem add_indented_lines_list_lines ls indent :
  Forall (λ l, Py.contains Py.LF l = false) ls →
  Py.lines (add_indented_lines (OfList ls) indent) = indented_block indent ls.
Proof. intros Hls. by rewrite lines_indented_list. Qed.

Lemma add_indented_lines_list_lines_witness :
  Py.lines (add_indented_lines (OfList ["- /tools/search@toolkits.search"]) 2)
  = indented_block 2 ["- /tools/search@toolkits.search"].
Proof.
  apply (add_indented_lines_list_lines ["- /tools/search@toolkits.search"] 2).
  repeat constructor.
Defined.

(** ** [build] *)

Section BuildMore.
Variable env : Env.

(** X4. A successful [build] of a generator that is not yet initialized
    constructs five objects, in this order, after those already in the
    store: the interaction toolkit and the four agents, each with its own
    name and rendered template, the first with the toolkit's tools and the
    stop at [final_answer], the others without tools. The attributes of
    [self] refer to them and [_initialized] is set. *)
Theorem build_constructs_agents w w' :
  _initialized (self w) = false →
  build env w = (Ok tt, w') →
  ∃ i1 tools i2 i3 i4,
    render_template env "requirements_clarification.j2" = Ok i1 ∧
    interaction_tools env = Ok tools ∧
    render_template env "tools_selection.j2" = Ok i2 ∧
    render_template env "instructions_generation.j2" = Ok i3 ∧
    render_template env "name_generation.j2" = Ok i4 ∧
    objects w' = objects w ++
      [InteractionToolkitObj;
       AgentObj {| agent_name := "clarification_agent"; agent_instructions := i1;
                   agent_tools := tools;
                   stop_at_tool_names := Some ["final_answer"] |};
       AgentObj {| agent_name := "tool_selection_agent"; agent_instructions := i2;
                   agent_tools := []; stop_at_tool_names := None |};
       AgentObj {| agent_name := "instructions_generation_agent";
                   agent_instructions := i3;
                   agent_tools := []; stop_at_tool_names := None |};
       AgentObj {| agent_name := "name_generation_agent"; agent_instructions := i4;
                   agent_tools := []; stop_at_tool_names := None |}] ∧
    interaction_toolkit (self w') = Some (length (objects w)) ∧
    agent_1 (self w') = Some (length (objects w) + 1) ∧
    agent_2 (self w') = Some (length (objects w) + 2) ∧
    agent_3 (self w') = Some (length (objects w) + 3) ∧
    agent_4 (self w') = Some (length (objects w) + 4) ∧
    _initialized (self w') = true ∧
    output_dir (self w') = output_dir (self w) ∧ mode (self w') = mode (self w).
Proof.
  intros Hi. unfold build, mbind, M_bind, lift. cbn. rewrite Hi. cbn.
  destruct (render_template env "requirements_clarification.j2") as [i1|]; [|done].
  cbn. destruct (interaction_tools env) as [tools|]; [|done]. cbn.
  destruct (render_template env "tools_selection.j2") as [i2|]; [|done]. cbn.
  destruct (render_template env "instructions_generation.j2") as [i3|]; [|done]. cbn.
  destruct (render_template env "name_generation.j2") as [i4|]; [|done]. cbn.
  intros [= <-]. exists i1, tools, i2, i3, i4. cbn.
  rewrite !length_app. cbn. rewrite <-!app_assoc. cbn.
  split_and!; try done; f_equal; lia.
Qed.

(** X5. A [build] that raises leaves the generator not initialized, so the
    next call constructs the agents again, and it touches neither the files
    nor the task recorder. *)
Theorem build_failure_not_initialized w e w' :
  build env w = (Raise e, w') →
  _initialized (self w') = false ∧
  files w' = files w ∧ task_recorder w' = task_recorder w.
Proof.
  intros H.
  destruct (wp_elim _ _ _ _ _ _ (build_spec env w) H) as (Hi & Hf & Hr & _).
  by split_and!.
Qed.

End BuildMore.

(** ** [_process_streamed] *)

Lemma for_each_print xs w :
  ∃ w', for_each xs print w = (Ok tt, w') ∧
    stdout w' = stdout w ++ xs ∧ task_recorder w' = task_recorder w ∧
    suspensions w' = suspensions w ∧ self w' = self w.
Proof.
  revert w. induction xs as [|x xs IH]; intros w; simpl.
  - exists w. by rewrite app_nil_r.
  - unfold mbind, M_bind. simpl.
    edestruct IH as (w' & -> & Hout & Hrec & Hsusp & Hself).
    exists w'. simpl in *. split_and!; try done.
    by rewrite Hout, <-app_assoc.
Qed.

Lemma for_each_put xs w :
  ∃ w', for_each xs (λ event, await Streaming ;; set_recorder (put_nowait event)) w
          = (Ok tt, w') ∧
    stdout w' = stdout w ∧
    _event_queue (task_recorder w') = _event_queue (task_recorder w) ++ xs ∧
    agree_except 0 (task_recorder w) (task_recorder w') ∧
    length (suspensions w') = length (suspensions w) + length xs ∧
    self w' = self w.
Proof.
  revert w. induction xs as [|x xs IH]; intros w; simpl.
  - exists w. rewrite app_nil_r.
    split_and!; try done; try apply agree_except_refl; lia.
  - unfold mbind, M_bind. simpl.
    edestruct IH as (w' & -> & Hout & Hq & Hag & Hsusp & Hself).
    exists w'. simpl in *. split_and!; try done.
    + by rewrite Hq, <-app_assoc.
    + rewrite Hsusp, length_app. simpl. lia.
Qed.

Lemma process_streamed_eq rr w w1 :
  (if String.eqb (mode (self w)) "local"
   then await Streaming ;; print_stream_events (stream_events rr)
   else for_each (stream_events rr)
          (λ event, await Streaming ;; set_recorder (put_nowait event)) ;;
        await Streaming) w = (Ok tt, w1) →
  _process_streamed rr w
  = (match stream_failure rr with Some e => Raise e | None => Ok tt end, w1).
Proof.
  intros H1.
  assert (wp (_process_streamed rr)
            (λ r w', stream_failure rr = None ∧ w' = w1)
            (λ e w', stream_failure rr = Some e ∧ w' = w1) w) as H.
  { unfold _process_streamed. rewrite wp_bind. unfold wp at 1. simpl.
    rewrite wp_bind. unfold wp at 1. rewrite H1.
    destruct (stream_failure rr); by unfold wp; simpl. }
  unfold wp in H.
  destruct (_process_streamed rr w) as [[[]|e] w']; destruct H as [-> ->]; done.
Qed.

(** X6. In local mode no event of a run is put on the event queue: the
    recorder is left as it was, also when the run fails, and the call raises
    the failure of the run when there is one. *)
Theorem process_streamed_local rr w :
  mode (self w) = "local" →
  (_process_streamed rr w).1
    = match stream_failure rr with Some e => Raise e | None => Ok tt end ∧
  task_recorder (_process_streamed rr w).2 = task_recorder w.
Proof.
  intros Hmode.
  destruct (for_each_print (stream_events rr)
              (await Streaming w).2) as (w1 & H1 & _ & Hrec & _).
  rewrite (process_streamed_eq rr w w1).
  - by split_and!.
  - rewrite Hmode. simpl. unfold mbind, M_bind, print_stream_events. simpl. exact H1.
Qed.

(** X7. In any other mode every event of a run is put on the event queue of
    the recorder, in order and behind what the queue held, with one
    suspension before each event and one at the end of the stream; nothing
    is printed and no other field of the recorder changes. This happens also
    when the run fails, and then the failure is raised after the events. *)
Theorem process_streamed_queue rr w :
  mode (self w) ≠ "local" →
  (_process_streamed rr w).1
    = match stream_failure rr with Some e => Raise e | None => Ok tt end ∧
  _event_queue (task_recorder (_process_streamed rr w).2)
    = _event_queue (task_recorder w) ++ stream_events rr ∧
  agree_except 0 (task_recorder w) (task_recorder (_process_streamed rr w).2) ∧
  stdout (_process_streamed rr w).2 = stdout w ∧
  length (suspensions (_process_streamed rr w).2)
    = length (suspensions w) + length (stream_events rr) + 1.
Proof.
  intros Hmode.
  destruct (for_each_put (stream_events rr) w) as (w1 & H1 & Hout & Hq & Hag & Hs & _).
  rewrite (process_streamed_eq rr w (await Streaming w1).2).
  - simpl. split_and!; try done. rewrite length_app. simpl. lia.
  - destruct (String.eqb_spec (mode (self w)) "local") as [?|_]; [done|].
    unfold mbind at 1, M_bind at 1. by rewrite H1.
Qed.

(** ** Step 2: the catalogue and the reverse index *)

Lemma index_tools_lookup_eq g tools idx t :
  index_tools g tools idx !! t
  = if decide (t ∈ map tool_name tools) then Some g else idx !! t.
Proof.
  unfold index_tools. revert idx.
  induction tools as [|tool tools IH]; intros idx; simpl.
  - done.
  - rewrite IH. destruct (decide (t ∈ map tool_name tools)) as [Hin|Hout].
    + rewrite decide_True; [done|]. by apply elem_of_cons; right.
    + rewrite lookup_insert. destruct (decide (tool_name tool = t)) as [<-|Hne].
      * rewrite decide_True; [done|]. apply elem_of_cons. by left.
      * rewrite decide_False; [done|]. rewrite elem_of_cons. by intros [?|?].
Qed.

Lemma catalogue_eq toolkits_map descs idx :
  (catalogue toolkits_map descs idx).1
    = descs ++ mjoin (map (λ kv, map tool_desc kv.2) toolkits_map) ∧
  ∀ t, (catalogue toolkits_map descs idx).2 !! t
       = match last_owner toolkits_map t with
         | Some g => Some g
         | None => idx !! t
         end.
Proof.
  revert descs idx.
  induction toolkits_map as [|[g tools] rest IH]; intros descs idx; simpl.
  - by rewrite app_nil_r.
  - destruct (IH (descs ++ map tool_desc tools) (index_tools g tools idx)) as [H1 H2].
    split; [by rewrite H1, <-app_assoc|].
    intros t. rewrite H2. destruct (last_owner rest t); [done|].
    rewrite index_tools_lookup_eq. by case_decide.
Qed.

Section CatalogueMore.
Variable env : Env.

(** X8. When the first loop of step 2 returns, the catalogue it has built
    for the prompt has one line [- name: description] for every tool of
    every toolkit, in the order of the toolkits and of their tools. *)
Theorem list_tools_catalogue toolkits_map w descs index w' :
  list_tools toolkits_map [] ∅ w = (Ok (descs, index), w') →
  descs = mjoin (map (λ kv, map tool_desc kv.2) toolkits_map).
Proof.
  intros H.
  destruct (list_tools_eq toolkits_map [] ∅ w) as (w1 & pre & H1 & _).
  rewrite H1 in H.
  pose proof (catalogue_eq toolkits_map [] ∅) as [Hc _].
  destruct (catalogue toolkits_map [] ∅) as [descs' index'].
  injection H as <- _ _. exact Hc.
Qed.

(** X9. The reverse index that step 2 builds maps a tool name to the last
    toolkit that lists a tool of that name: when two toolkits list the same
    name the later one owns it, and a name that no toolkit lists is absent
    from the index. *)
Theorem reverse_index_last_toolkit_wins t :
  tool_to_toolkit_name env !! t
    = last_owner (get_toolkits_map env available_toolkits) t ∧
  (tool_to_toolkit_name env !! t = None ↔
   ∀ g tools, (g, tools) ∈ get_toolkits_map env available_toolkits →
              t ∉ map tool_name tools).
Proof.
  unfold tool_to_toolkit_name.
  pose proof (catalogue_eq (get_toolkits_map env available_toolkits) [] ∅) as [_ H].
  assert (∀ tm, last_owner tm t = None ↔
                ∀ g tools, (g, tools) ∈ tm → t ∉ map tool_name tools) as Hnone.
  { induction tm as [|[g tools] rest IH]; simpl.
    - split; [|done]. intros _ g tools Hin. by apply elem_of_nil in Hin.
    - destruct (last_owner rest t) as [g'|] eqn:Hl.
      + split; [done|]. intros Hall.
        assert (Some g' = None) as Habs; [|done].
        apply IH. intros g0 tools0 Hin. apply (Hall g0 tools0).
        by apply elem_of_cons; right.
      + destruct (decide (t ∈ map tool_name tools)) as [Hin|Hout].
        * split; [done|]. intros Hall. destruct (Hall g tools); [|done].
          apply elem_of_cons. by left.
        * split; [|done]. intros _ g0 tools0 [[= -> ->]|Hin]%elem_of_cons; [done|].
          destruct IH as [IH _]. by apply (IH eq_refl g0 tools0). }
  assert (tool_to_toolkit_name env !! t
          = last_owner (get_toolkits_map env available_toolkits) t) as Heq.
  { unfold tool_to_toolkit_name. rewrite H.
    destruct (last_owner _ t); [done|apply lookup_empty]. }
  unfold tool_to_toolkit_name in Heq. split; [done|].
  rewrite Heq. apply Hnone.
Qed.

End CatalogueMore.

(** ** Step 2: the grouping *)

Lemma first_occurrences_ext l s1 s2 :
  (∀ x, x ∈ s1 ↔ x ∈ s2) → first_occurrences l s1 = first_occurrences l s2.
Proof.
  revert s1 s2. induction l as [|x l IH]; intros s1 s2 Heq; simpl; [done|].
  destruct (decide (x ∈ s1)) as [H1|H1].
  - rewrite decide_True by (by apply Heq). by apply IH.
  - rewrite decide_False by (by rewrite <-Heq). f_equal. apply IH.
    intros y. rewrite !elem_of_cons. by rewrite Heq.
Qed.

Lemma group_tools_keys idx names acc d :
  group_tools idx (map Json.Str names) acc = Ok d →
  Dict.keys d
  = Dict.keys acc ++ first_occurrences (omap (λ t, idx !! t) names) (Dict.keys acc).
Proof.
  revert acc. induction names as [|t names IH]; intros acc; simpl.
  - intros [= ->]. by rewrite app_nil_r.
  - destruct (idx !! t) as [g|] eqn:Ht; [|done]. simpl.
    intros Hd. rewrite (IH _ Hd), keys_append_to.
    destruct (decide (g ∈ Dict.keys acc)) as [Hin|Hout]; [done|].
    rewrite <-app_assoc. simpl. do 2 f_equal.
    apply first_occurrences_ext. intros x.
    rewrite elem_of_app, list_elem_of_singleton, elem_of_cons. tauto.
Qed.

Section GroupingMore.
Variable env : Env.

(** X10. After a successful step 2 on a decoded list of names,
    [selected_tools] has a key exactly for the groups that own at least one
    of the names, every key once, and no key holds an empty list. *)
Theorem step2_keys_are_owners w w' rr names :
  selection_run env w = Ok rr →
  json_loads env (final_output rr) = Some (Json.Arr (map Json.Str names)) →
  step2 env w = (Ok tt, w') →
  ∃ d, selected_tools (task_recorder w') = Some d ∧
    NoDup (Dict.keys d) ∧
    (∀ g, g ∈ Dict.keys d ↔ ∃ t, t ∈ names ∧ tool_to_toolkit_name env !! t = Some g) ∧
    (∀ g l, Dict.lookup g d = Some l → l ≠ []).
Proof.
  intros Hrun Hjson H.
  destruct (step2_Ok env w w' H)
    as (rr' & v & names' & d & Hrun' & _ & Hjson' & Hiter & Hd & Hnd & Hkeys & Hget).
  rewrite Hrun in Hrun'. injection Hrun' as <-.
  rewrite Hjson in Hjson'. injection Hjson' as <-.
  simpl in Hiter. injection Hiter as Hiter. apply map_Str_inj in Hiter as <-.
  assert (∀ g t, t ∈ names → tool_to_toolkit_name env !! t = Some g →
                 Dict.get_list g d ≠ []) as Hne.
  { intros g t Ht Hown Hnil. rewrite Hget in Hnil.
    assert (t ∈ filter (owned_by (tool_to_toolkit_name env) g) names) as Hin
      by (by apply list_elem_of_filter).
    rewrite Hnil in Hin. by apply elem_of_nil in Hin. }
  exists d. split_and!; [done|done| |].
  - intros g. split; [apply Hkeys|]. intros (t & Ht & Hown).
    destruct (decide (g ∈ Dict.keys d)) as [|Hout]; [done|].
    apply lookup_None_keys in Hout. destruct (Hne g t Ht Hown).
    unfold Dict.get_list. by rewrite Hout.
  - intros g l Hl ->.
    assert (g ∈ Dict.keys d) as Hin.
    { destruct (decide (g ∈ Dict.keys d)) as [|Hout]; [done|].
      apply lookup_None_keys in Hout. congruence. }
    destruct (Hkeys g Hin) as (t & Ht & Hown).
    apply (Hne g t Ht Hown). unfold Dict.get_list. by rewrite Hl.
Qed.

(** X11. The groups of [selected_tools] are in the order in which the
    decoded list first names one of their tools, not in the order of the
    toolkits. *)
Theorem step2_keys_in_discovery_order w w' rr names :
  selection_run env w = Ok rr →
  json_loads env (final_output rr) = Some (Json.Arr (map Json.Str names)) →
  step2 env w = (Ok tt, w') →
  ∃ d, selected_tools (task_recorder w') = Some d ∧
    Dict.keys d
    = first_occurrences (omap (λ t, tool_to_toolkit_name env !! t) names) [].
Proof.
  intros Hrun Hjson H.
  pose proof (wp_elim _ _ _ _ _ _ (step2_spec env w) H) as (_ & _ & d & Hout & Hsel).
  unfold step2_outcome in Hout. rewrite Hrun in Hout.
  destruct (stream_failure rr); [done|]. rewrite Hjson in Hout. simpl in Hout.
  exists d. split; [done|]. by rewrite (group_tools_keys _ _ _ _ Hout).
Qed.

(** X12. When the decoded output is not iterable ([null], a boolean or a
    number), step 2 raises a [TypeError] and leaves [selected_tools] as it
    was. *)
Theorem step2_not_iterable w rr v :
  selection_run env w = Ok rr →
  stream_failure rr = None →
  json_loads env (final_output rr) = Some v →
  (v = Json.Null ∨ (∃ b, v = Json.Bool b) ∨ ∃ n, v = Json.Num n) →
  ∃ msg w',
    step2 env w = (Raise (TypeError msg), w') ∧
    selected_tools (task_recorder w') = selected_tools (task_recorder w).
Proof.
  intros Hrun Hfail Hjson Hv.
  pose proof (step2_spec env w) as H. unfold wp in H.
  assert (∃ msg, step2_outcome env w = Raise (TypeError msg)) as [msg Hmsg].
  { unfold step2_outcome. rewrite Hrun, Hfail, Hjson.
    destruct Hv as [->|[[b ->]|[n ->]]]; simpl; by eexists. }
  destruct (step2 env w) as [[[]|e] w'].
  - destruct H as (_ & _ & d & Hout & _). congruence.
  - destruct H as (_ & _ & Hout & Hsel). exists msg, w'. split; [|done]. congruence.
Qed.

(** X13. Step 2 succeeds on a decoded list only if every element of the list
    is a string that the reverse index knows: an element of any other type,
    or an unknown name, makes it raise. *)
Theorem step2_success_needs_known_names w w' rr items :
  selection_run env w = Ok rr →
  json_loads env (final_output rr) = Some (Json.Arr items) →
  step2 env w = (Ok tt, w') →
  ∃ names, items = map Json.Str names ∧
    Forall (λ t, is_Some (tool_to_toolkit_name env !! t)) names.
Proof.
  intros Hrun Hjson H.
  pose proof (wp_elim _ _ _ _ _ _ (step2_spec env w) H) as (_ & _ & d & Hout & Hsel).
  unfold step2_outcome in Hout. rewrite Hrun in Hout.
  destruct (stream_failure rr); [done|]. rewrite Hjson in Hout. simpl in Hout.
  apply group_tools_Ok in Hout as (names & -> & Hall & _). by exists names.
Qed.

(** X14. When the decoded output is the empty list, step 2 succeeds and
    stores an empty [selected_tools]: selecting no tool is not an error. *)
Theorem step2_empty_selection w rr :
  selection_run env w = Ok rr →
  stream_failure rr = None →
  json_loads env (final_output rr) = Some (Json.Arr []) →
  ∃ w', step2 env w = (Ok tt, w') ∧
        selected_tools (task_recorder w') = Some [].
Proof.
  intros Hrun Hfail Hjson.
  pose proof (step2_spec env w) as H. unfold wp in H.
  assert (step2_outcome env w = Ok []) as Hout.
  { unfold step2_outcome. by rewrite Hrun, Hfail, Hjson. }
  destruct (step2 env w) as [[[]|e] w'].
  - destruct H as (_ & _ & d & Hd & Hsel). exists w'. split; [done|]. congruence.
  - destruct H as (_ & _ & Hd & _). congruence.
Qed.

End GroupingMore.

(** ** [format_config] *)

Section FormatMore.
Variable env : Env.

(** X15. [format_config] needs the selection and the instructions. When
    [selected_tools] is unset it raises the [AttributeError] of [items];
    when the selection is set and the instructions are unset, the
    [TypeError] of iterating [None]. In both cases it raises before it
    reaches the file, and nothing has changed. *)
Theorem format_config_needs_outputs w :
  selected_tools (task_recorder w) = None ∨ instructions (task_recorder w) = None →
  format_config env w
  = (Raise (match selected_tools (task_recorder w) with
            | None => AttributeError "items"
            | Some _ => TypeError "'NoneType' object is not iterable"
            end), w).
Proof.
  intros H. pose proof (format_config_cases env w) as Hc. simpl in Hc.
  destruct (selected_tools (task_recorder w)) as [d|]; [|done].
  destruct (instructions (task_recorder w)) as [instr|]; [|done].
  by destruct H.
Qed.

(** X16. When [format_config] succeeds, the path it returns is
    [output_dir / (str(name) + ".yaml")], the file at that path holds the
    rendered document, replacing whatever was there, and every other file is
    as before. A name that is unset is not an error: the file is then
    [None.yaml]. *)
Theorem format_config_writes_one_file w ofn w' :
  format_config env w = (Ok ofn, w') →
  ofn = joinpath env (output_dir (self w))
          (py_str (name (task_recorder w)) +:+ ".yaml") ∧
  (∃ d instr,
     selected_tools (task_recorder w) = Some d ∧
     instructions (task_recorder w) = Some instr ∧
     files w' !! ofn = Some (rendered d (py_str (name (task_recorder w))) instr)) ∧
  ∀ other, other ≠ ofn → files w' !! other = files w !! other.
Proof.
  intros H. pose proof (format_config_cases env w) as Hc. simpl in Hc.
  destruct (selected_tools (task_recorder w)) as [d|]; [|congruence].
  destruct (instructions (task_recorder w)) as [instr|]; [|congruence].
  destruct (can_write env _); [|congruence].
  destruct Hc as (w1 & Hc & Hfiles & _). rewrite Hc in H. injection H as <- <-.
  split_and!; [done| |].
  - exists d, instr. split_and!; [done|done|]. rewrite Hfiles. apply lookup_insert_eq.
  - intros other Hne. rewrite Hfiles. by apply lookup_insert_ne.
Qed.

End FormatMore.

(** ** The drivers *)

Section DriversMore.
Variable env : Env.

Lemma run_until_format_files w :
  wp (run_until_format env)
     (λ _ w', files w' = files w) (λ _ w', files w' = files w) w.
Proof.
  unfold run_until_format, run_until_step4, run_until_step2.
  rewrite !wp_bind.
  eapply wp_mono; [apply build_spec| |]; simpl; [|by intros _ w1 (_ & ? & _)].
  intros _ wa (_ & Hfa & _).
  rewrite wp_bind. unfold wp at 1. simpl.
  eapply wp_mono; [apply step1_spec| |]; simpl;
    [|intros _ w1 (((_ & _ & Hf & _) & _) & _); simpl in Hf; congruence].
  intros _ w1 (((_ & _ & Hf1 & _) & _) & _). simpl in Hf1.
  rewrite wp_bind.
  eapply wp_mono; [apply step2_spec| |]; simpl;
    [|intros _ w2 (((_ & _ & Hf & _) & _) & _); congruence].
  intros _ w2 (((_ & _ & Hf2 & _) & _) & _).
  eapply wp_mono; [apply step3_spec| |]; simpl;
    [|intros _ w3 (((_ & _ & Hf & _) & _) & _); congruence].
  intros _ w3 (((_ & _ & Hf3 & _) & _) & _).
  eapply wp_mono; [apply step4_spec| |]; simpl;
    [|intros _ w4 (((_ & _ & Hf & _) & _) & _); congruence].
  intros _ w4 (((_ & _ & Hf4 & _) & _) & _). congruence.
Qed.

Lemma run_after_steps w :
  run env w =
  match run_until_format env w with
  | (Ok _, w4) => (ofn ← format_config env; print ("Config saved to " +:+ ofn)) w4
  | (Raise e, w') => (Raise e, w')
  end.
Proof.
  unfold run, run_until_format, run_until_step4, run_until_step2, mbind, M_bind.
  destruct (build env w) as [[[]|e] wa]; [|done].
  destruct (set_recorder _ wa) as [[[]|e] wb]; [|done].
  destruct (step1 env wb) as [[[]|e] w1]; [|done].
  destruct (step2 env w1) as [[[]|e] w2]; [|done].
  destruct (step3 env w2) as [[[]|e] w3]; [|done].
  by destruct (step4 env w3) as [[[]|e] w4].
Qed.

(** X17. A [run] that fails in [build] or in one of the four steps raises
    the exception of that failure and has written no file: [format_config]
    is not reached. *)
Theorem run_step_failure_writes_nothing w e w' :
  run_until_format env w = (Raise e, w') →
  run env w = (Raise e, w') ∧ files w' = files w.
Proof.
  intros H. split.
  - by rewrite run_after_steps, H.
  - exact (wp_elim _ _ _ _ _ _ (run_until_format_files w) H).
Qed.

(** X18. A [run] that succeeds leaves the generator initialized and a
    recorder with the four outputs set and the completion flag still false;
    it has written exactly one file, and its last line on the console is
    [Config saved to] followed by the path of that file. *)
Theorem run_success w w' :
  run env w = (Ok tt, w') →
  _initialized (self w') = true ∧
  (∀ j : nat, (1 ≤ j ≤ 4)%nat → output_set j (task_recorder w') = true) ∧
  _is_complete (task_recorder w') = false ∧
  ∃ ofn doc,
    files w' = <[ofn := doc]> (files w) ∧
    last (stdout w') = Some ("Config saved to " +:+ ofn).
Proof.
  intros H.
  refine (wp_elim (run env)
            (λ _ w', _initialized (self w') = true ∧
               (∀ j : nat, (1 ≤ j ≤ 4)%nat → output_set j (task_recorder w') = true) ∧
               _is_complete (task_recorder w') = false ∧
               ∃ ofn doc, files w' = <[ofn := doc]> (files w) ∧
                 last (stdout w') = Some ("Config saved to " +:+ ofn))
            (λ _ _, True) _ _ _ _ H).
  unfold run.
  rewrite wp_bind. eapply wp_mono; [apply build_spec| |done]; simpl.
  intros _ wa (Hinit & Hfa & _).
  rewrite wp_bind. unfold wp at 1. simpl.
  apply wp_four_steps; [|done].
  intros w4 (Hs4 & _ & Hf4 & _) Hout Hflag. simpl in Hs4, Hf4, Hflag.
  rewrite wp_bind. unfold wp at 1.
  pose proof (format_config_cases env w4) as Hc. simpl in Hc.
  destruct (selected_tools (task_recorder w4)) as [d|]; [|by rewrite Hc].
  destruct (instructions (task_recorder w4)) as [instr|]; [|by rewrite Hc].
  destruct (can_write env _); [|by rewrite Hc].
  destruct Hc as (w5 & -> & Hf5 & Hr5 & Hs5 & _).
  unfold wp. simpl.
  split_and!; [by rewrite Hs5, Hs4|by rewrite Hr5|by rewrite Hr5|].
  eexists _, _. split; [by rewrite Hf5, Hf4, Hfa|]. apply last_snoc.
Qed.

(** X19. When [_start_streaming] returns, the four outputs of the recorder
    are set, the path it returns is [output_dir / (str(name) + ".yaml")]
    for the name in the recorder, and the files are as before but for the
    file at that path, which holds the document rendered from the outputs
    in the recorder. *)
Theorem start_streaming_result w ofn w' :
  _start_streaming env w = (Ok ofn, w') →
  (∀ j : nat, (1 ≤ j ≤ 4)%nat → output_set j (task_recorder w') = true) ∧
  ∃ d instr,
    selected_tools (task_recorder w') = Some d ∧
    instructions (task_recorder w') = Some instr ∧
    ofn = joinpath env (output_dir (self w'))
            (py_str (name (task_recorder w')) +:+ ".yaml") ∧
    files w' = <[ofn := rendered d (py_str (name (task_recorder w'))) instr]> (files w).
Proof.
  intros H. exact (wp_elim _ _ _ _ _ _ (start_streaming_success env w) H).
Qed.

End DriversMore.

(** ** The steps *)

Lemma length_slice_to_min n s :
  String.length (Py.slice_to n s) = Nat.min n (String.length s).
Proof.
  revert s. induction n as [|n IH]; intros [|a s]; simpl; try done.
  by rewrite IH.
Qed.

(** X20. The name step 4 stores never needs fixing again: storing it a
    second time would change nothing. Fixing only cuts and replaces, so the
    stored name has the length of the generated name, or 50 if that is
    longer. *)
Theorem stored_name_is_fixed_point generated :
  name_needs_fixing (stored_name generated) = false ∧
  stored_name (stored_name generated) = stored_name generated ∧
  String.length (stored_name generated) = Nat.min 50 (String.length generated).
Proof.
  destruct (stored_name_ok generated) as [Hlen Hsp].
  assert (name_needs_fixing (stored_name generated) = false) as Hfix
    by (by apply name_needs_fixing_false).
  split_and!; [done| |].
  - unfold stored_name at 1. by rewrite Hfix.
  - unfold stored_name. destruct (name_needs_fixing generated) eqn:Hg.
    + unfold fixed_name. by rewrite length_replace, length_slice_to_min.
    + apply name_needs_fixing_false in Hg as [? _]. lia.
Qed.

Section StepsMore.
Variable env : Env.

(** X21. Before [build] has run the agent attributes do not exist: steps
    1, 3 and 4 raise the [AttributeError] of the first attribute they read,
    step 2 does not succeed either, and every step leaves the outputs of
    the recorder as they were. *)
Theorem steps_need_build w :
  interaction_toolkit (self w) = None → agent_2 (self w) = None →
  agent_3 (self w) = None → agent_4 (self w) = None →
  (step1 env w).1 = Raise (AttributeError "interaction_toolkit") ∧
  is_ok (step2 env w).1 = false ∧
  (step3 env w).1 = Raise (AttributeError "agent_3") ∧
  (step4 env w).1 = Raise (AttributeError "agent_4") ∧
  agree_except 0 (task_recorder w) (task_recorder (step1 env w).2) ∧
  agree_except 0 (task_recorder w) (task_recorder (step2 env w).2) ∧
  agree_except 0 (task_recorder w) (task_recorder (step3 env w).2) ∧
  agree_except 0 (task_recorder w) (task_recorder (step4 env w).2).
Proof.
  intros H1 H2 H3 H4.
  assert (step1 env w = (Raise (AttributeError "interaction_toolkit"),
                         (enter_step 1 w).2)) as E1.
  { unfold step1, mbind, M_bind. cbn. by rewrite H1. }
  assert (step3 env w = (Raise (AttributeError "agent_3"), (enter_step 3 w).2)) as E3.
  { unfold step3, mbind, M_bind. cbn. by rewrite H3. }
  assert (step4 env w = (Raise (AttributeError "agent_4"), (enter_step 4 w).2)) as E4.
  { unfold step4, mbind, M_bind. cbn. by rewrite H4. }
  pose proof (step2_spec env w) as S2. unfold wp in S2.
  assert (step2_outcome env w = Raise (AttributeError "agent_2")) as O2.
  { unfold step2_outcome, selection_run. by rewrite H2. }
  rewrite E1, E3, E4. cbn.
  destruct (step2 env w) as [[[]|e] w2]; cbn.
  - destruct S2 as (_ & _ & d & Hd & _). congruence.
  - destruct S2 as ((_ & A2 & _) & _ & Hd & Hsel).
    split_and!; try done; try apply agree_except_refl.
    unfold agree_except in *. intuition congruence.
Qed.

(** X22. Step 3 stores the final output of the instruction-generation agent
    as it is, run on the requirements the recorder holds; it logs nothing
    and changes no other output. *)
Theorem step3_stores_output_verbatim w w' :
  step3 env w = (Ok tt, w') →
  ∃ agent,
    agent_at (objects w) (agent_3 (self w)) = Some agent ∧
    instructions (task_recorder w')
      = Some (final_output (run_agent env agent (requirements (task_recorder w)))) ∧
    warnings w' = warnings w ∧
    agree_except 3 (task_recorder w) (task_recorder w').
Proof.
  intros H.
  pose proof (wp_elim _ _ _ _ _ _ (step3_spec env w) H)
    as ((_ & A & _) & Hw & a & Ha & Hi).
  by exists a.
Qed.

(** X23. Step 1 asks the user the fixed question and runs the clarification
    agent on the answer: the requirements it stores are the final output of
    that run. *)
Theorem step1_stores_clarified_requirements w w' :
  step1 env w = (Ok tt, w') →
  ∃ agent user_input,
    ask_user env "Please enter your requirements:" = Ok user_input ∧
    agent_at (objects w) (agent_1 (self w)) = Some agent ∧
    requirements (task_recorder w')
      = Some (final_output (run_agent env agent (Some user_input))) ∧
    agree_except 1 (task_recorder w) (task_recorder w').
Proof.
  intros H.
  pose proof (wp_elim _ _ _ _ _ _ (step1_spec env w) H)
    as ((_ & A & _) & _ & a & u & Hu & Ha & Hr).
  by exists a, u.
Qed.

(** X24. When asking the user fails, step 1 raises that failure without
    entering the agent: the only suspension is the one of the question, and
    the recorder is untouched. *)
Theorem step1_ask_user_fails w tk e :
  interaction_toolkit (self w) = Some tk →
  ask_user env "Please enter your requirements:" = Raise e →
  (step1 env w).1 = Raise e ∧
  task_recorder (step1 env w).2 = task_recorder w ∧
  suspensions (step1 env w).2
    = suspensions w ++
      [{| in_step := 1; at_point := AskingUser; seen := task_recorder w |}].
Proof.
  intros Htk Hask. unfold step1, mbind, M_bind, lift. cbn.
  rewrite Htk. cbn. by rewrite Hask.
Qed.

End StepsMore.

(** ** The further properties at the sample environments *)

Lemma build_constructs_agents_witness :
  agent_2 (self (after (build round_trip_env) sample_world)) = Some 2 ∧
  length (objects (after (build round_trip_env) sample_world)) = 5.
Proof.
  destruct (build_constructs_agents round_trip_env sample_world
              (after (build round_trip_env) sample_world))
    as (i1 & tools & i2 & i3 & i4 & _ & _ & _ & _ & _ & Hobj & _ & _ & H2 & _).
  - reflexivity.
  - vm_compute. reflexivity.
  - rewrite H2, Hobj. split; reflexivity.
Defined.

Lemma build_failure_not_initialized_witness :
  _initialized (self (after (build missing_template_env) sample_world)) = false ∧
  files (after (build missing_template_env) sample_world) = files sample_world.
Proof.
  destruct (build_failure_not_initialized missing_template_env sample_world
              (ExternalError "TemplateNotFound")
              (after (build missing_template_env) sample_world))
    as (Hi & Hf & _).
  - vm_compute. reflexivity.
  - by split.
Defined.

Lemma process_streamed_local_witness :
  task_recorder (_process_streamed (sample_selection_run "[]") sample_world).2
  = task_recorder sample_world.
Proof.
  destruct (process_streamed_local (sample_selection_run "[]") sample_world)
    as (_ & H).
  - reflexivity.
  - exact H.
Defined.

Lemma list_tools_catalogue_witness :
  (catalogue (get_toolkits_map round_trip_env available_toolkits) [] ∅).1
  = mjoin (map (λ kv, map tool_desc kv.2)
             (get_toolkits_map round_trip_env available_toolkits)).
Proof.
  apply (list_tools_catalogue
           (get_toolkits_map round_trip_env available_toolkits) sample_world _
           (catalogue (get_toolkits_map round_trip_env available_toolkits) [] ∅).2
           (after (list_tools (get_toolkits_map round_trip_env available_toolkits)
                     [] ∅) sample_world)).
  vm_compute. reflexivity.
Defined.

Lemma process_streamed_queue_witness :
  _event_queue (task_recorder (_process_streamed (sample_selection_run "[]") webui_world).2)
  = _event_queue (task_recorder webui_world) ++ stream_events (sample_selection_run "[]").
Proof.
  destruct (process_streamed_queue (sample_selection_run "[]") webui_world)
    as (_ & H & _).
  - vm_compute. discriminate.
  - exact H.
Defined.

Lemma step2_keys_are_owners_witness :
  ∃ d, selected_tools (task_recorder
         (after (step2 repeated_env)
            (after (run_until_step2 repeated_env) sample_world))) = Some d ∧
    NoDup (Dict.keys d).
Proof.
  destruct (step2_keys_are_owners repeated_env
              (after (run_until_step2 repeated_env) sample_world)
              (after (step2 repeated_env)
                 (after (run_until_step2 repeated_env) sample_world))
              (sample_selection_run repeated_selection) repeated_names)
    as (d & Hd & Hnd & _).
  - vm_compute. reflexivity.
  - vm_compute. reflexivity.
  - vm_compute. reflexivity.
  - by exists d.
Defined.

Lemma step2_keys_in_discovery_order_witness :
  ∃ d, selected_tools (task_recorder
         (after (step2 repeated_env)
            (after (run_until_step2 repeated_env) sample_world))) = Some d ∧
    Dict.keys d
    = first_occurrences
        (omap (λ t, tool_to_toolkit_name repeated_env !! t) repeated_names) [].
Proof.
  apply (step2_keys_in_discovery_order repeated_env
           (after (run_until_step2 repeated_env) sample_world) _
           (sample_selection_run repeated_selection)).
  - vm_compute. reflexivity.
  - vm_compute. reflexivity.
  - vm_compute. reflexivity.
Defined.

Lemma step2_not_iterable_witness :
  ∃ msg w',
    step2 null_env (after (run_until_step2 null_env) sample_world)
      = (Raise (TypeError msg), w') ∧
    selected_tools (task_recorder w')
      = selected_tools (task_recorder (after (run_until_step2 null_env) sample_world)).
Proof.
  apply (step2_not_iterable null_env
           (after (run_until_step2 null_env) sample_world)
           (sample_selection_run "null") Json.Null).
  - vm_compute. reflexivity.
  - reflexivity.
  - vm_compute. reflexivity.
  - by left.
Defined.

Lemma step2_success_needs_known_names_witness :
  ∃ names, [Json.Str "web_search"; Json.Str "pdf_reader"] = map Json.Str names ∧
    Forall (λ t, is_Some (tool_to_toolkit_name round_trip_env !! t)) names.
Proof.
  apply (step2_success_needs_known_names round_trip_env
           (after (run_until_step2 round_trip_env) sample_world)
           (after (step2 round_trip_env)
              (after (run_until_step2 round_trip_env) sample_world))
           (sample_selection_run round_trip_selection)).
  - vm_compute. reflexivity.
  - vm_compute. reflexivity.
  - vm_compute. reflexivity.
Defined.

Lemma step2_empty_selection_witness :
  ∃ w', step2 empty_selection_env
          (after (run_until_step2 empty_selection_env) sample_world) = (Ok tt, w') ∧
        selected_tools (task_recorder w') = Some [].
Proof.
  apply (step2_empty_selection empty_selection_env
           (after (run_until_step2 empty_selection_env) sample_world)
           (sample_selection_run "[]")).
  - vm_compute. reflexivity.
  - reflexivity.
  - vm_compute. reflexivity.
Defined.

Lemma format_config_needs_outputs_witness :
  format_config round_trip_env sample_world
  = (Raise (AttributeError "items"), sample_world).
Proof.
  apply (format_config_needs_outputs round_trip_env sample_world).
  left. reflexivity.
Defined.

Lemma format_config_writes_one_file_witness :
  files (after (format_config round_trip_env)
           (after (run_until_format round_trip_env) sample_world))
    !! "configs/agents/generated/other.yaml"
  = files (after (run_until_format round_trip_env) sample_world)
      !! "configs/agents/generated/other.yaml".
Proof.
  destruct (format_config_writes_one_file round_trip_env
              (after (run_until_format round_trip_env) sample_world)
              "configs/agents/generated/web_pdf_agent.yaml"
              (after (format_config round_trip_env)
                 (after (run_until_format round_trip_env) sample_world)))
    as (_ & _ & H).
  - vm_compute. reflexivity.
  - apply H. discriminate.
Defined.

Lemma run_step_failure_writes_nothing_witness :
  run prose_env sample_world
    = (Raise (JSONDecodeError prose_selection),
       after (run_until_format prose_env) sample_world) ∧
  files (after (run_until_format prose_env) sample_world) = files sample_world.
Proof.
  apply (run_step_failure_writes_nothing prose_env sample_world
           (JSONDecodeError prose_selection)).
  vm_compute. reflexivity.
Defined.

Lemma run_success_witness :
  _initialized (self (after (run round_trip_env) sample_world)) = true ∧
  _is_complete (task_recorder (after (run round_trip_env) sample_world)) = false.
Proof.
  destruct (run_success round_trip_env sample_world
              (after (run round_trip_env) sample_world)) as (H1 & _ & H2 & _).
  - vm_compute. reflexivity.
  - by split.
Defined.

Lemma start_streaming_result_witness :
  ∃ d instr,
    selected_tools (task_recorder
      (after (_start_streaming round_trip_env) sample_world)) = Some d ∧
    instructions (task_recorder
      (after (_start_streaming round_trip_env) sample_world)) = Some instr ∧
    files (after (_start_streaming round_trip_env) sample_world)
    = <["configs/agents/generated/web_pdf_agent.yaml" :=
          rendered d (py_str (name (task_recorder
            (after (_start_streaming round_trip_env) sample_world)))) instr]>
        (files sample_world).
Proof.
  destruct (start_streaming_result round_trip_env sample_world
              "configs/agents/generated/web_pdf_agent.yaml"
              (after (_start_streaming round_trip_env) sample_world))
    as (_ & d & instr & Hd & Hi & _ & Hf).
  - vm_compute. reflexivity.
  - exists d, instr. split_and!; [exact Hd|exact Hi|exact Hf].
Defined.

Lemma steps_need_build_witness :
  (step1 round_trip_env sample_world).1
    = Raise (AttributeError "interaction_toolkit") ∧
  is_ok (step2 round_trip_env sample_world).1 = false.
Proof.
  destruct (steps_need_build round_trip_env sample_world) as (H1 & H2 & _);
    try reflexivity.
  by split.
Defined.

Lemma step3_stores_output_verbatim_witness :
  ∃ agent,
    agent_at (objects (after (run_until_step3 round_trip_env) sample_world))
      (agent_3 (self (after (run_until_step3 round_trip_env) sample_world)))
      = Some agent ∧
    warnings (after (run_until_step4 round_trip_env) sample_world)
      = warnings (after (run_until_step3 round_trip_env) sample_world).
Proof.
  destruct (step3_stores_output_verbatim round_trip_env
              (after (run_until_step3 round_trip_env) sample_world)
              (after (run_until_step4 round_trip_env) sample_world))
    as (agent & Ha & _ & Hw & _).
  - vm_compute. reflexivity.
  - by exists agent.
Defined.

Lemma step1_stores_clarified_requirements_witness :
  ∃ agent user_input,
    ask_user round_trip_env "Please enter your requirements:" = Ok user_input ∧
    requirements (task_recorder (after (run_until_step2 round_trip_env) sample_world))
      = Some (final_output (run_agent round_trip_env agent (Some user_input))).
Proof.
  destruct (step1_stores_clarified_requirements round_trip_env
              (after (run_until_step1 round_trip_env) sample_world)
              (after (run_until_step2 round_trip_env) sample_world))
    as (agent & u & Hu & _ & Hr & _).
  - vm_compute. reflexivity.
  - by exists agent, u.
Defined.

Lemma step1_ask_user_fails_witness :
  (step1 silent_user_env (after (build silent_user_env) sample_world)).1
  = Raise (ExternalError "EOFError").
Proof.
  destruct (step1_ask_user_fails silent_user_env
              (after (build silent_user_env) sample_world) 0
              (ExternalError "EOFError")) as (H & _).
  - vm_compute. reflexivity.
  - reflexivity.
  - exact H.
Defined.
